(** * xbot: notification classification and bot-probability scoring

    A shallow embedding of the TypeScript sources
      - [services/profile-analyzer.ts]  (class [ProfileAnalyzer]),
      - [services/dom-extractor.ts]     (class [DOMExtractor]),
      - [content/index.ts]              (class [BotDetector]),
    followed by the properties proved about them.

    Conventions of the embedding.
      - A JavaScript string is a [string]: a sequence of code units, here
        the code units U+0000..U+00FF (Latin-1), on which [toLowerCase] and
        [trim] act unit by unit.
      - A JavaScript number is an IEEE-754 binary64 value, [spec_float]
        with precision 53 and maximal exponent 1024; arithmetic is the
        correctly rounded one of [SpecFloat].
      - A regular expression is a [pattern]; [test] searches the subject
        from left to right as [RegExp.prototype.test] does (none of the
        program's expressions carries the [g] or [y] flag, so [test] keeps
        no state between calls).
      - The DOM is read through records that hold what each query of the
        program returns; console logging is not modelled. *)

From Stdlib Require Import String Ascii List Bool NArith ZArith Lia.
From Stdlib Require Import Floats.SpecFloat.
From Equations Require Import Equations.
Import ListNotations.
Open Scope string_scope.

(* ===================================================================== *)
(** * Part I: definitions *)
(* ===================================================================== *)

(** ** JavaScript strings *)

Module JS.

Definition code (c : ascii) : N := N_of_ascii c.

Definition inRange (lo hi : N) (c : ascii) : bool :=
  ((lo <=? code c) && (code c <=? hi))%N.

(** [A-Z], and the Latin-1 capitals U+00C0..U+00DE without the
    multiplication sign U+00D7, are the units that have a lower-case
    form; it lies 32 above. *)
Definition isUpper (c : ascii) : bool :=
  inRange 65 90 c || (inRange 192 222 c && negb (code c =? 215)%N).

Definition lowerUnit (c : ascii) : ascii :=
  if isUpper c then ascii_of_N (code c + 32) else c.

(** [String.prototype.toLowerCase] *)
Fixpoint toLowerCase (s : string) : string :=
  match s with
  | EmptyString => EmptyString
  | String c s' => String (lowerUnit c) (toLowerCase s')
  end.

(** [String.prototype.startsWith] *)
Definition startsWith (s p : string) : bool := String.prefix p s.

(** [String.prototype.includes] *)
Fixpoint includes (s needle : string) : bool :=
  String.prefix needle s
  || match s with
     | EmptyString => false
     | String _ s' => includes s' needle
     end.

(** [s.slice(1)] *)
Definition slice1 (s : string) : string :=
  match s with
  | EmptyString => EmptyString
  | String _ s' => s'
  end.

(** White space and line terminators among the modelled code units:
    TAB, LF, VT, FF, CR, SP and NBSP. *)
Definition isSpace (c : ascii) : bool :=
  inRange 9 13 c || (code c =? 32)%N || (code c =? 160)%N.

Fixpoint trimStart (s : string) : string :=
  match s with
  | EmptyString => EmptyString
  | String c s' => if isSpace c then trimStart s' else s
  end.

(** Removes trailing white space: a unit is kept when it is not white
    space or when something is kept after it. *)
Fixpoint trimEnd (s : string) : string :=
  match s with
  | EmptyString => EmptyString
  | String c s' =>
      match trimEnd s' with
      | EmptyString => if isSpace c then EmptyString else String c EmptyString
      | t => String c t
      end
  end.

(** [String.prototype.trim] *)
Definition trim (s : string) : string := trimEnd (trimStart s).

(** Truthiness of a string: the empty string is falsy. *)
Definition truthy (s : string) : bool :=
  match s with
  | EmptyString => false
  | _ => true
  end.

(** [Array.prototype.push] *)
Definition push {A : Type} (xs : list A) (x : A) : list A := (xs ++ [x])%list.

(** A unit occurs in a text. *)
Fixpoint occurs (c : ascii) (s : string) : Prop :=
  match s with
  | EmptyString => False
  | String c' s' => c' = c \/ occurs c s'
  end.

(** The double-quote code unit, for selector and url() texts. *)
Definition dquote : ascii := ascii_of_N 34.

End JS.

(** ** Regular expressions *)

Module RegExp.

(** The fragment of the regular-expression syntax the program uses:
    character classes given by ranges, sequence, alternation and
    repetition; [Void] only arises while matching. *)
Inductive regex : Type :=
| Void
| Eps
| Cls (ranges : list (ascii * ascii))
| Cat (r1 r2 : regex)
| Alt (r1 r2 : regex)
| Star (r : regex).

(** A pattern is a body with the two assertions the program's
    expressions use: [^] as the first term and [$] as the last term of
    the whole expression. *)
Record pattern : Type := Pattern {
  fromStart : bool;
  body : regex;
  toEnd : bool
}.

Definition inClass (ranges : list (ascii * ascii)) (c : ascii) : bool :=
  existsb (fun r => JS.inRange (JS.code (fst r)) (JS.code (snd r)) c) ranges.

(** *** Pattern syntax *)

Definition range (lo hi : ascii) : list (ascii * ascii) := [(lo, hi)].

Definition chr (c : ascii) : regex := Cls (range c c).

(** A pattern character under the [i] flag: a letter matches itself in
    either case (canonicalization never maps a unit above U+007F onto an
    ASCII letter). *)
Definition chr_i (c : ascii) : regex :=
  if JS.inRange 97 122 c then Cls [(c, c); (ascii_of_N (JS.code c - 32), ascii_of_N (JS.code c - 32))]
  else if JS.inRange 65 90 c then Cls [(c, c); (ascii_of_N (JS.code c + 32), ascii_of_N (JS.code c + 32))]
  else chr c.

Fixpoint lit (s : string) : regex :=
  match s with
  | EmptyString => Eps
  | String c EmptyString => chr c
  | String c s' => Cat (chr c) (lit s')
  end.

Fixpoint lit_i (s : string) : regex :=
  match s with
  | EmptyString => Eps
  | String c EmptyString => chr_i c
  | String c s' => Cat (chr_i c) (lit_i s')
  end.

(** [r+] *)
Definition plus (r : regex) : regex := Cat r (Star r).

(** [r{n,}] *)
Fixpoint atLeast (n : nat) (r : regex) : regex :=
  match n with
  | O => Star r
  | S n' => Cat r (atLeast n' r)
  end.

Definition digit : regex := Cls (range "0" "9").
Definition lower : regex := Cls (range "a" "z").
Definition upper : regex := Cls (range "A" "Z").
Definition lowerOrDigit : regex := Cls [("a"%char, "z"%char); ("0"%char, "9"%char)].

(** *** The language of an expression *)

Inductive Matches : regex -> string -> Prop :=
| MEps : Matches Eps EmptyString
| MCls ranges c :
    inClass ranges c = true -> Matches (Cls ranges) (String c EmptyString)
| MCat r1 r2 s1 s2 :
    Matches r1 s1 -> Matches r2 s2 -> Matches (Cat r1 r2) (s1 ++ s2)
| MAltL r1 r2 s : Matches r1 s -> Matches (Alt r1 r2) s
| MAltR r1 r2 s : Matches r2 s -> Matches (Alt r1 r2) s
| MStar0 r : Matches (Star r) EmptyString
| MStarS r s1 s2 :
    Matches r s1 -> Matches (Star r) s2 -> Matches (Star r) (s1 ++ s2).

(** *** Matching *)

Fixpoint nullable (r : regex) : bool :=
  match r with
  | Void => false
  | Eps => true
  | Cls _ => false
  | Cat r1 r2 => nullable r1 && nullable r2
  | Alt r1 r2 => nullable r1 || nullable r2
  | Star _ => true
  end.

Definition cat (r1 r2 : regex) : regex :=
  match r1, r2 with
  | Void, _ => Void
  | _, Void => Void
  | Eps, _ => r2
  | _, _ => Cat r1 r2
  end.

Definition alt (r1 r2 : regex) : regex :=
  match r1, r2 with
  | Void, _ => r2
  | _, Void => r1
  | _, _ => Alt r1 r2
  end.

(** What remains to be matched after reading [c]. *)
Fixpoint deriv (c : ascii) (r : regex) : regex :=
  match r with
  | Void => Void
  | Eps => Void
  | Cls ranges => if inClass ranges c then Eps else Void
  | Cat r1 r2 =>
      if nullable r1 then alt (cat (deriv c r1) r2) (deriv c r2)
      else cat (deriv c r1) r2
  | Alt r1 r2 => alt (deriv c r1) (deriv c r2)
  | Star r1 => cat (deriv c r1) (Star r1)
  end.

(** Is there a match that starts at the beginning of [s] (and, with
    [toEnd], ends at the end of [s])? *)
Fixpoint matchHere (toEnd : bool) (r : regex) (s : string) : bool :=
  match s with
  | EmptyString => nullable r
  | String c s' =>
      (nullable r && negb toEnd) || matchHere toEnd (deriv c r) s'
  end.

(** The start positions are tried from left to right. *)
Fixpoint search (toEnd : bool) (r : regex) (s : string) : bool :=
  matchHere toEnd r s
  || match s with
     | EmptyString => false
     | String _ s' => search toEnd r s'
     end.

(** [RegExp.prototype.test] *)
Definition test (p : pattern) (s : string) : bool :=
  if fromStart p then matchHere (toEnd p) (body p) s
  else search (toEnd p) (body p) s.

End RegExp.

(** ** JavaScript numbers *)

Module Number.

Definition number : Type := spec_float.

Definition prec : Z := 53.
Definition emax : Z := 1024.

Definition ofZ (n : Z) : number :=
  match n with
  | Z0 => S754_zero false
  | Zpos p => binary_normalize prec emax n 0 false
  | Zneg p => binary_normalize prec emax n 0 true
  end.

(** The value of a decimal literal [n/d] (as [0.3] is 3/10): the
    binary64 number nearest to it. *)
Definition decimal (n d : Z) : number := SFdiv prec emax (ofZ n) (ofZ d).

Definition zero : number := S754_zero false.

Definition add (x y : number) : number := SFadd prec emax x y.

(** [x === y] on numbers *)
Definition strictEq (x y : number) : bool := SFeqb x y.

(** [x > y] *)
Definition greaterThan (x y : number) : bool := SFltb y x.

(** [x <= y] *)
Definition lessEq (x y : number) : bool := SFleb x y.

(** [x < y] *)
Definition lessThan (x y : number) : bool := SFltb x y.

Definition isNegZero (x : number) : bool :=
  match x with
  | S754_zero true => true
  | _ => false
  end.

(** [Math.min(x, y)]: NaN if either is NaN, and -0 is below +0. *)
Definition Math_min (x y : number) : number :=
  match x, y with
  | S754_nan, _ => S754_nan
  | _, S754_nan => S754_nan
  | _, _ =>
      if SFltb x y then x
      else if SFltb y x then y
      else if isNegZero y then y else x
  end.

End Number.

(** ** Shared types ([types/profile.ts]) *)

Module Types.
Export Number.

(** Modelled from the spec: the enumeration [InteractionType] of
    [types/profile.ts], which is not among the sources; the spec lists
    its variants as Like, Reply, Repost and Follow. *)
Inductive InteractionType : Type := Like | Reply | Repost | Follow.

(** Modelled from the spec: the enumeration [NotificationType] of
    [types/profile.ts], which is not among the sources; these are the
    variants the extractor refers to. *)
Inductive NotificationType : Type :=
| PinnedPost | Trending | CommunityPost | UserInteraction | MultiUser.

(** ['user_interaction' | 'multi_user'] *)
Inductive UserNotificationType : Type := user_interaction | multi_user.

(** Modelled from the spec: the record types [Profile] and [ProfileData]
    of [types/profile.ts], which are not among the sources.  One record
    carries the fields the program reads and writes; [K] is the type of
    the [notificationType] discriminator, which is what distinguishes
    [ProfileData] from the extractor's [UserProfileData]. *)
Record ProfileOf (K : Type) : Type := Build_Profile {
  username : string;
  displayName : string;
  profileImageUrl : string;
  followersCount : number;
  followingCount : number;
  interactionTimestamp : Z;
  interactionType : InteractionType;
  notificationType : K
}.
Arguments Build_Profile {K}.
Arguments username {K}.
Arguments displayName {K}.
Arguments profileImageUrl {K}.
Arguments followersCount {K}.
Arguments followingCount {K}.
Arguments interactionTimestamp {K}.
Arguments interactionType {K}.
Arguments notificationType {K}.

Definition ProfileData : Type := ProfileOf NotificationType.
Definition UserProfileData : Type := ProfileOf UserNotificationType.

Record BotAnalysis : Type := {
  probability : number;
  reasons : list string
}.

End Types.

(** ** [services/profile-analyzer.ts] *)

Module ProfileAnalyzer.
Import RegExp.
Export Types.

Record PatternTable : Type := {
  randomAlphanumeric : pattern;
  manyNumbers : pattern;
  botKeywords : pattern;
  randomSuffix : pattern;
  numericSuffix : pattern;
  randomLetters : pattern;
  community : pattern
}.

Definition PATTERNS : PatternTable := {|
  (* /^[a-z0-9]{8,}$/ *)
  randomAlphanumeric := Pattern true (atLeast 8 lowerOrDigit) true;
  (* /[0-9]{4,}/ *)
  manyNumbers := Pattern false (atLeast 4 digit) false;
  (* /bot|spam|[0-9]+[a-z]+[0-9]+/ *)
  botKeywords :=
    Pattern false
      (Alt (lit "bot")
           (Alt (lit "spam") (Cat (plus digit) (Cat (plus lower) (plus digit)))))
      false;
  (* /[a-z]+[0-9]{4,}$/ *)
  randomSuffix := Pattern false (Cat (plus lower) (atLeast 4 digit)) true;
  (* /[0-9]{4,}$/ *)
  numericSuffix := Pattern false (atLeast 4 digit) true;
  (* /[A-Z]{2,}[0-9]+/ *)
  randomLetters := Pattern false (Cat (atLeast 2 upper) (plus digit)) false;
  (* /^i\/communities\// *)
  community := Pattern true (lit "i/communities/") false
|}.

Record ScoreTable : Type := {
  noFollowers : number;
  randomAlphanumericScore : number;
  manyNumbersScore : number;
  botKeywordsScore : number;
  randomSuffixScore : number;
  numericSuffixScore : number;
  randomLettersScore : number
}.

Definition SCORES : ScoreTable := {|
  noFollowers := decimal 3 10;
  randomAlphanumericScore := decimal 3 10;
  manyNumbersScore := decimal 2 10;
  botKeywordsScore := decimal 3 10;
  randomSuffixScore := decimal 2 10;
  numericSuffixScore := decimal 2 10;
  randomLettersScore := decimal 2 10
|}.

(** The cap [0.9] and the Coordinator's threshold [0.5]. *)
Definition cap : number := decimal 9 10.

Section Scoring.
Context {K : Type}.

Definition calculateBotProbability (profile : ProfileOf K) : number :=
  let score := zero in
  (* Check followers/following *)
  let score :=
    if strictEq (followersCount profile) zero
       && strictEq (followingCount profile) zero
    then add score (noFollowers SCORES) else score in
  (* Check username patterns *)
  let username := JS.toLowerCase (username profile) in
  let score :=
    if test (randomAlphanumeric PATTERNS) username
    then add score (randomAlphanumericScore SCORES) else score in
  let score :=
    if test (manyNumbers PATTERNS) username
    then add score (manyNumbersScore SCORES) else score in
  let score :=
    if test (botKeywords PATTERNS) username
    then add score (botKeywordsScore SCORES) else score in
  let score :=
    if test (randomSuffix PATTERNS) username
    then add score (randomSuffixScore SCORES) else score in
  let score :=
    if test (numericSuffix PATTERNS) username
    then add score (numericSuffixScore SCORES) else score in
  let score :=
    if test (randomLetters PATTERNS) username
    then add score (randomLettersScore SCORES) else score in
  (* Cap the maximum score at 0.9 *)
  Math_min score cap.

(** The promise the source returns always fulfils; its value is
    modelled. *)
Definition analyzeBotProbability (profile : ProfileOf K) : BotAnalysis :=
  (* Skip community posts *)
  if test (community PATTERNS) (username profile) then
    {| probability := zero; reasons := [] |}
  else
    let probability := calculateBotProbability profile in
    let reasons : list string := [] in
    (* Add reasons based on matched patterns *)
    let reasons :=
      if strictEq (followersCount profile) zero
         && strictEq (followingCount profile) zero
      then JS.push reasons "No followers or following" else reasons in
    let username := JS.toLowerCase (username profile) in
    let reasons :=
      if test (randomAlphanumeric PATTERNS) username
      then JS.push reasons "Random alphanumeric username" else reasons in
    let reasons :=
      if test (manyNumbers PATTERNS) username
      then JS.push reasons "Username contains many numbers" else reasons in
    let reasons :=
      if test (botKeywords PATTERNS) username
      then JS.push reasons "Username contains bot-like keywords" else reasons in
    let reasons :=
      if test (randomSuffix PATTERNS) username
      then JS.push reasons "Username has random number suffix" else reasons in
    let reasons :=
      if test (numericSuffix PATTERNS) username
      then JS.push reasons "Username ends with many numbers" else reasons in
    let reasons :=
      if test (randomLetters PATTERNS) username
      then JS.push reasons "Username has random letters and numbers" else reasons in
    {| probability := probability; reasons := reasons |}.

End Scoring.

End ProfileAnalyzer.

(** ** The page as the program reads it *)

Module DOM.

(** How an evaluation ends: normally with a value, or abruptly with a
    thrown exception. *)
Inductive Completion (A : Type) : Type :=
| Normal (a : A)
| Throw.
Arguments Normal {A}.
Arguments Throw {A}.

(** Computations over a state [S] that may throw; an exception leaves
    the state as it was when thrown. *)
Definition Eff (S A : Type) : Type := S -> Completion A * S.

Definition ret {S A : Type} (a : A) : Eff S A := fun s => (Normal a, s).

Definition throw {S A : Type} : Eff S A := fun s => (Throw, s).

Definition bind {S A B : Type} (m : Eff S A) (k : A -> Eff S B) : Eff S B :=
  fun s =>
    match m s with
    | (Normal a, s') => k a s'
    | (Throw, s') => (Throw, s')
    end.

(** [try { m } catch { handler }] *)
Definition catch {S A : Type} (m handler : Eff S A) : Eff S A :=
  fun s =>
    match m s with
    | (Normal a, s') => (Normal a, s')
    | (Throw, s') => handler s'
    end.

Definition lift {S A : Type} (c : Completion A) : Eff S A :=
  fun s => (c, s).

(** [xs.map(f)], the calls of [f] made from left to right. *)
Fixpoint mapM {S A B : Type} (f : A -> Eff S B) (xs : list A) : Eff S (list B) :=
  match xs with
  | [] => ret []
  | x :: xs' => bind (f x) (fun y => bind (mapM f xs') (fun ys => ret (y :: ys)))
  end.

(** The clock: the successive readings [Date.now()] returns, and how
    many of them have been taken. *)
Record Clock : Type := {
  readings : nat -> Z;
  reads : nat
}.

Definition Date_now : Eff Clock Z :=
  fun c => (Normal (readings c (reads c)),
            {| readings := readings c; reads := S (reads c) |}).

(** [HTMLImageElement]: its [src] *)
Record Image : Type := { src : string }.

(** An element as seen through [window.getComputedStyle]: its
    [backgroundImage] *)
Record Styled : Type := { backgroundImage : string }.

(** An avatar container: the results of
    [querySelector('img[src*="profile_images"]')] and of
    [querySelectorAll('[style*="background-image"]')] on it. *)
Record Container : Type := {
  profileImg : option Image;
  bgElements : list Styled
}.

(** A link: [getAttribute('href')] and [textContent]. *)
Record Anchor : Type := {
  href : option string;
  anchorText : option string
}.

(** A notification cell: its [textContent], the result of
    [querySelectorAll('a[role="link"]')] in document order, and
    [querySelector] on a selector text, which throws on a selector that
    does not parse. *)
Record Cell : Type := {
  textContent : option string;
  roleLinks : list Anchor;
  querySelector : string -> Completion (option Container)
}.

(** An element handed to the extractor: its class list, and the result
    of [closest('[data-testid="cellInnerDiv"]')] when that is an
    [HTMLElement]. *)
Record Element : Type := {
  classList : list string;
  closestCell : option Cell
}.

Definition contains (classes : list string) (name : string) : bool :=
  existsb (String.eqb name) classes.

End DOM.

Declare Scope eff_scope.
Delimit Scope eff_scope with eff.
Notation "x <- m ;; k" := (DOM.bind m (fun x => k))
  (at level 61, m at next level, right associativity) : eff_scope.

(** ** [services/dom-extractor.ts] *)

Module DOMExtractor.
Import RegExp DOM.
Export Types.

Record NotificationData : Type := {
  type : NotificationType;
  text : string;
  users : option (list UserProfileData)
}.

Record PatternTable : Type := {
  PINNED_POST : pattern;
  TRENDING : pattern;
  COMMUNITY_POST : pattern;
  MULTI_USER : pattern;
  LIKE : pattern;
  REPLY : pattern;
  REPOST : pattern;
  FOLLOW : pattern
}.

Definition PATTERNS : PatternTable := {|
  PINNED_POST := Pattern false (lit_i "new pinned post in") false;
  TRENDING := Pattern false (lit_i "trending in") false;
  COMMUNITY_POST := Pattern false (lit_i "new community post in") false;
  MULTI_USER := Pattern false (lit_i "new post notifications for") false;
  LIKE := Pattern false (lit_i "liked") false;
  REPLY := Pattern false (lit_i "replied") false;
  REPOST := Pattern false (lit_i "reposted") false;
  FOLLOW := Pattern false (lit_i "followed") false
|}.

(** The selector text [[data-testid="UserAvatar-Container-${username}"]] *)
Definition avatarSelector (username : string) : string :=
  "[data-testid=" ++ String JS.dquote ("UserAvatar-Container-" ++ username)
    ++ String JS.dquote "]".

Definition quote : regex := Cls [("'"%char, "'"%char); (JS.dquote, JS.dquote)].

(** [.]: any unit but a line terminator *)
Definition dot : regex :=
  Cls [(ascii_of_N 0, ascii_of_N 9); (ascii_of_N 11, ascii_of_N 12);
       (ascii_of_N 14, ascii_of_N 255)].

(** The expression of [extractProfileImage]: from the start, the text
    url and an opening parenthesis, a quote (single or double), group 1
    made of one or more units matched by the dot, a quote, a closing
    parenthesis, up to the end. *)
Definition URL_WRAPPER : pattern :=
  Pattern true
    (Cat (lit "url(") (Cat quote (Cat (plus dot) (Cat quote (chr ")")))))
    true.

(** [bgImage.replace(URL_WRAPPER, $1)]: when the whole text matches,
    group 1 is what lies between the first five and the last two units. *)
Definition unwrapUrl (bgImage : string) : string :=
  if test URL_WRAPPER bgImage
  then String.substring 5 (String.length bgImage - 7) bgImage
  else bgImage.

Definition determineInteractionType (text : string) : InteractionType :=
  if test (LIKE PATTERNS) text then Like
  else if test (REPLY PATTERNS) text then Reply
  else if test (REPOST PATTERNS) text then Repost
  else Follow.

(** The [for] loop over the background-image elements. *)
Fixpoint firstBackground (els : list Styled) : option string :=
  match els with
  | [] => None
  | el :: rest =>
      let bgImage := backgroundImage el in
      if JS.truthy bgImage
         && negb (String.eqb bgImage "none")
         && JS.includes bgImage "profile_images"
      then Some (unwrapUrl bgImage)
      else firstBackground rest
  end.

Definition extractProfileImage (container : Container) : option string :=
  (* Try to find img tag first *)
  match profileImg container with
  | Some img =>
      if JS.truthy (src img) then Some (src img)
      else firstBackground (bgElements container)
  | None =>
      (* Fallback to background image *)
      firstBackground (bgElements container)
  end.

(** The filter on the links: [href?.startsWith('/') && !href.includes('/i/')] *)
Definition isUserLink (link : Anchor) : bool :=
  match href link with
  | Some h => JS.startsWith h "/" && negb (JS.includes h "/i/")
  | None => false
  end.

Open Scope eff_scope.

(** The function mapped over the user links. *)
Definition buildUser (cell : Cell) (text : string) (link : Anchor)
  : Eff Clock (option UserProfileData) :=
  match option_map JS.slice1 (href link) with
  | None => ret None
  | Some username =>
      if negb (JS.truthy username) then ret None
      else
        avatarContainer <- lift (querySelector cell (avatarSelector username)) ;;
        match avatarContainer with
        | None => ret None
        | Some container =>
            match extractProfileImage container with
            | None => ret None
            | Some profileImageUrl =>
                if negb (JS.truthy profileImageUrl) then ret None
                else
                  let displayName :=
                    match option_map JS.trim (anchorText link) with
                    | Some t => if JS.truthy t then t else username
                    | None => username
                    end in
                  let interactionType := determineInteractionType text in
                  let isMultiUser := test (MULTI_USER PATTERNS) text in
                  let notificationType :=
                    if isMultiUser then multi_user else user_interaction in
                  now <- Date_now ;;
                  ret (Some (Build_Profile username displayName profileImageUrl
                               zero zero now interactionType notificationType))
            end
        end
  end.

(** [.filter(user => user !== null)] *)
Fixpoint nonNull {A : Type} (xs : list (option A)) : list A :=
  match xs with
  | [] => []
  | Some x :: xs' => x :: nonNull xs'
  | None :: xs' => nonNull xs'
  end.

Definition isEmpty {A : Type} (xs : list A) : bool :=
  match xs with
  | [] => true
  | _ => false
  end.

Definition parseNotification (cell : Cell)
  : Eff Clock (option NotificationData) :=
  let text :=
    match textContent cell with
    | Some t => JS.toLowerCase t
    | None => ""
    end in
  (* Check notification type *)
  if test (PINNED_POST PATTERNS) text then
    ret (Some {| type := PinnedPost; text := text; users := None |})
  else if test (TRENDING PATTERNS) text then
    ret (Some {| type := Trending; text := text; users := None |})
  else if test (COMMUNITY_POST PATTERNS) text then
    ret (Some {| type := CommunityPost; text := text; users := None |})
  else
    (* Find all user links *)
    let userLinks := filter isUserLink (roleLinks cell) in
    if isEmpty userLinks then ret None
    else
      (* Extract user data *)
      built <- mapM (buildUser cell text) userLinks ;;
      let users := nonNull built in
      if isEmpty users then ret None
      else
        ret (Some {| type := if test (MULTI_USER PATTERNS) text
                             then MultiUser else UserInteraction;
                     text := text;
                     users := Some users |}).

Definition isUserType (t : NotificationType) : bool :=
  match t with
  | UserInteraction | MultiUser => true
  | _ => false
  end.

(** The body of the [try] block. *)
Definition extractProfileData_try (element : Element)
  : Eff Clock (option ProfileData) :=
  (* Skip if this is our warning element *)
  if contains (classList element) "xbd-warning" then ret None
  else
    (* Find the notification cell *)
    match closestCell element with
    | None => ret None
    | Some cell =>
        (* Determine notification type and handle accordingly *)
        notificationData <- parseNotification cell ;;
        match notificationData with
        | None => ret None
        | Some nd =>
            match users nd with
            | None => ret None
            | Some [] => ret None
            | Some (userProfile :: _) =>
                (* Skip non-user notifications *)
                if negb (isUserType (type nd)) then ret None
                else
                  (* Convert UserProfileData to ProfileData *)
                  ret (Some (Build_Profile
                               (username userProfile)
                               (displayName userProfile)
                               (profileImageUrl userProfile)
                               (followersCount userProfile)
                               (followingCount userProfile)
                               (interactionTimestamp userProfile)
                               (interactionType userProfile)
                               (match notificationType userProfile with
                                | multi_user => MultiUser
                                | user_interaction => UserInteraction
                                end)))
            end
        end
    end.

Definition extractProfileData (element : Element)
  : Eff Clock (option ProfileData) :=
  catch (extractProfileData_try element) (ret None).

End DOMExtractor.

(** ** [content/index.ts] *)

Module BotDetector.
Import DOM.
Export Types.

(** *** Feed discovery *)

(** What [document.querySelector] returns: an element, which may or may
    not be an [HTMLElement]. *)
Record Node : Type := {
  isHTMLElement : bool;
  nodeId : nat
}.

Definition Document : Type := string -> option Node.

Definition attr (name value : string) : string :=
  "[" ++ name ++ "=" ++ String JS.dquote (value ++ String JS.dquote "]").

(** Try multiple selectors in order of specificity *)
Definition selectors : list string :=
  [ attr "aria-label" "Timeline: Notifications";
    attr "data-testid" "primaryColumn";
    attr "data-testid" "notificationsTimeline";
    "section" ++ attr "role" "region" ].

(** The [for] loop over the selectors. *)
Fixpoint findFeed (document : Document) (sels : list string) : option Node :=
  match sels with
  | [] => None
  | selector :: rest =>
      match document selector with
      | Some feed => if isHTMLElement feed then Some feed else findFeed document rest
      | None => findFeed document rest
      end
  end.

(** The fields [retryCount] and [maxRetries] of a detector. *)
Record Fields : Type := {
  retryCount : nat;
  maxRetries : nat
}.

(** [retryCount = 0; maxRetries = 10] *)
Definition initial : Fields := {| retryCount := 0; maxRetries := 10 |}.

Definition incrRetryCount (this : Fields) : Fields :=
  {| retryCount := S (retryCount this); maxRetries := maxRetries this |}.

(** The outcome of the wait: the feed or [null], the fields afterwards,
    and the delays of the timers awaited, in order. *)
Record Waited : Type := {
  feed : option Node;
  fields : Fields;
  timers : list Z
}.

(** [page k] is the document as it stands once [k] timers have elapsed. *)
Equations waitForNotificationsFeed (page : nat -> Document) (this : Fields)
  : Waited by wf (maxRetries this - retryCount this) lt :=
  waitForNotificationsFeed page this with findFeed (page 0) selectors := {
    | Some found := {| feed := Some found; fields := this; timers := [] |}
    | None with le_lt_dec (maxRetries this) (retryCount this) := {
        | left _ := {| feed := None; fields := this; timers := [] |}
        | right _ :=
            let rest := waitForNotificationsFeed (fun k => page (S k))
                                                 (incrRetryCount this) in
            {| feed := feed rest; fields := fields rest;
               timers := 1000%Z :: timers rest |} } }.
Next Obligation. simpl. lia. Qed.

(** Whether [init] starts the pipeline: with a feed it sets up the
    observer on it and scans it; without one it returns. *)
Inductive Pipeline : Type :=
| NotStarted
| Observing (feed : Node).

Definition init (page : nat -> Document) (this : Fields) : Pipeline * Fields :=
  let waited := waitForNotificationsFeed page this in
  match feed waited with
  | None => (NotStarted, fields waited)
  | Some found => (Observing found, fields waited)
  end.

(** *** Handling one notification *)

(** The calls the Coordinator makes to its collaborators. *)
Inductive Call : Type :=
| ExtractProfileData
| AnalyzeBotProbability (username : string)
| AddBotWarningUI (probability : number) (reasons : list string)
| RecordInteraction (username : string) (timestamp : Z)
    (interactionType : InteractionType) (probability : number)
    (reasons : list string).

(** What handling a notification can change: the attributes of the
    notification element, the calls made so far (oldest first), and the
    clock. *)
Record Page : Type := {
  attributes : list (string * string);
  calls : list Call;
  clock : Clock
}.

(** [el.hasAttribute(name)] *)
Definition hasAttribute (attrs : list (string * string)) (name : string) : bool :=
  existsb (fun kv => String.eqb (fst kv) name) attrs.

(** [el.setAttribute(name, value)]: replaces the value of an attribute
    that is present, adds the attribute otherwise. *)
Definition setAttribute (attrs : list (string * string)) (name value : string)
  : list (string * string) :=
  if hasAttribute attrs name
  then map (fun kv => if String.eqb (fst kv) name then (name, value) else kv) attrs
  else (attrs ++ [(name, value)])%list.

Definition logCall (c : Call) : Eff Page unit :=
  fun page =>
    (Normal tt,
     {| attributes := attributes page;
        calls := JS.push (calls page) c;
        clock := clock page |}).

(** Runs a computation of the extractor on the clock of the page. *)
Definition onClock {A : Type} (m : Eff Clock A) : Eff Page A :=
  fun page =>
    let (r, c) := m (clock page) in
    (r, {| attributes := attributes page; calls := calls page; clock := c |}).

Definition markProcessed : Eff Page unit :=
  fun page =>
    (Normal tt,
     {| attributes := setAttribute (attributes page) "data-xbot-processed" "true";
        calls := calls page;
        clock := clock page |}).

(** Modelled from the spec: the persistence collaborator
    ([services/storage.ts], not among the sources), whose
    [recordInteraction] is asynchronous and may fail; [fulfils] tells
    for which calls its promise fulfils rather than rejects. *)
Definition Storage : Type :=
  string -> Z -> InteractionType -> number -> list string -> bool.

Open Scope eff_scope.

Definition domExtractor_extractProfileData (notification : Element)
  : Eff Page (option ProfileData) :=
  _ <- logCall ExtractProfileData ;;
  onClock (DOMExtractor.extractProfileData notification).

Definition profileAnalyzer_analyzeBotProbability (profileData : ProfileData)
  : Eff Page BotAnalysis :=
  _ <- logCall (AnalyzeBotProbability (username profileData)) ;;
  ret (ProfileAnalyzer.analyzeBotProbability profileData).

(** Modelled from the spec: the rendering collaborator
    ([services/ui-manager.ts], not among the sources), whose
    [addBotWarningUI] is fire-and-forget and returns nothing the
    Coordinator consumes. *)
Definition uiManager_addBotWarningUI (probability : number) (reasons : list string)
  : Eff Page unit :=
  logCall (AddBotWarningUI probability reasons).

(** [await storageService.recordInteraction(...)]: a rejected promise
    is thrown at the [await]. *)
Definition storageService_recordInteraction (fulfils : Storage)
  (username : string) (timestamp : Z) (interactionType : InteractionType)
  (probability : number) (reasons : list string) : Eff Page unit :=
  _ <- logCall (RecordInteraction username timestamp interactionType
                                 probability reasons) ;;
  if fulfils username timestamp interactionType probability reasons
  then ret tt else throw.

(** [processNotification]: [Normal] when the promise it returns
    fulfils, [Throw] when it rejects. *)
Definition processNotification (fulfils : Storage) (notification : Element)
  : Eff Page unit :=
  fun page =>
    (* Skip if already processed *)
    if hasAttribute (attributes page) "data-xbot-processed" then ret tt page
    else
      (profileData <- domExtractor_extractProfileData notification ;;
       match profileData with
       | None => ret tt
       | Some profileData =>
           analysis <- profileAnalyzer_analyzeBotProbability profileData ;;
           _ <- (if greaterThan (probability analysis) (decimal 5 10) then
                   _ <- uiManager_addBotWarningUI (probability analysis)
                                                  (reasons analysis) ;;
                   storageService_recordInteraction fulfils
                     (username profileData)
                     (interactionTimestamp profileData)
                     (interactionType profileData)
                     (probability analysis)
                     (reasons analysis)
                 else ret tt) ;;
           (* Mark as processed *)
           markProcessed
       end) page.

End BotDetector.

(** ** The notions the properties are stated with *)

Module Spec.
Import RegExp DOM.
Export Types.

(** *** Scoring *)

Section ScoringConditions.
Context {K : Type}.

(** The no-followers condition. *)
Definition noFollowersCondition (profile : ProfileOf K) : bool :=
  strictEq (followersCount profile) zero && strictEq (followingCount profile) zero.

(** The scoring conditions as one table, in evaluation order: whether the
    condition matched, its weight, and its reason text.  The username
    heuristics are evaluated on the lower-cased username. *)
Definition conditions (profile : ProfileOf K) : list (bool * number * string) :=
  let username := JS.toLowerCase (username profile) in
  [ (noFollowersCondition profile,
     ProfileAnalyzer.noFollowers ProfileAnalyzer.SCORES,
     "No followers or following");
    (test (ProfileAnalyzer.randomAlphanumeric ProfileAnalyzer.PATTERNS) username,
     ProfileAnalyzer.randomAlphanumericScore ProfileAnalyzer.SCORES,
     "Random alphanumeric username");
    (test (ProfileAnalyzer.manyNumbers ProfileAnalyzer.PATTERNS) username,
     ProfileAnalyzer.manyNumbersScore ProfileAnalyzer.SCORES,
     "Username contains many numbers");
    (test (ProfileAnalyzer.botKeywords ProfileAnalyzer.PATTERNS) username,
     ProfileAnalyzer.botKeywordsScore ProfileAnalyzer.SCORES,
     "Username contains bot-like keywords");
    (test (ProfileAnalyzer.randomSuffix ProfileAnalyzer.PATTERNS) username,
     ProfileAnalyzer.randomSuffixScore ProfileAnalyzer.SCORES,
     "Username has random number suffix");
    (test (ProfileAnalyzer.numericSuffix ProfileAnalyzer.PATTERNS) username,
     ProfileAnalyzer.numericSuffixScore ProfileAnalyzer.SCORES,
     "Username ends with many numbers");
    (test (ProfileAnalyzer.randomLetters ProfileAnalyzer.PATTERNS) username,
     ProfileAnalyzer.randomLettersScore ProfileAnalyzer.SCORES,
     "Username has random letters and numbers") ].

Definition matched (c : bool * number * string) : bool := fst (fst c).
Definition weight (c : bool * number * string) : number := snd (fst c).
Definition reason (c : bool * number * string) : string := snd c.

(** The conditions that matched, in evaluation order. *)
Definition matchedConditions (profile : ProfileOf K) : list (bool * number * string) :=
  filter matched (conditions profile).

(** The weights of the matched conditions, added up from 0 in evaluation
    order. *)
Definition accumulated (profile : ProfileOf K) : number :=
  fold_left add (map weight (matchedConditions profile)) zero.

End ScoringConditions.

(** [xs] is found in [ys] in order, other items possibly in between. *)
Fixpoint isSubsequence (xs ys : list string) : bool :=
  match xs, ys with
  | [], _ => true
  | _ :: _, [] => false
  | x :: xs', y :: ys' =>
      if String.eqb x y then isSubsequence xs' ys' else isSubsequence xs ys'
  end.

(** *** Extraction *)

(** The flattened, lower-cased text of a cell. *)
Definition loweredText (cell : Cell) : string :=
  match textContent cell with
  | Some t => JS.toLowerCase t
  | None => ""
  end.

(** The structural kind of a text: the first of the pinned, trending and
    community patterns, in that order, that matches it. *)
Definition structuralKind (text : string) : option NotificationType :=
  if test (DOMExtractor.PINNED_POST DOMExtractor.PATTERNS) text then Some PinnedPost
  else if test (DOMExtractor.TRENDING DOMExtractor.PATTERNS) text then Some Trending
  else if test (DOMExtractor.COMMUNITY_POST DOMExtractor.PATTERNS) text
       then Some CommunityPost
  else None.

(** The candidate links of a cell, in document order. *)
Definition userLinks (cell : Cell) : list Anchor :=
  filter DOMExtractor.isUserLink (roleLinks cell).

(** The username a link stands for: its path without the leading unit. *)
Definition linkUsername (link : Anchor) : string :=
  match href link with
  | Some h => JS.slice1 h
  | None => ""
  end.

(** The image a link resolves to: its username is not empty, the cell
    has an avatar container for that username, and the container yields
    a non-empty image address. *)
Definition resolvedImage (cell : Cell) (link : Anchor) : option string :=
  match href link with
  | Some h =>
      if JS.truthy (JS.slice1 h) then
        match querySelector cell (DOMExtractor.avatarSelector (JS.slice1 h)) with
        | Normal (Some container) =>
            match DOMExtractor.extractProfileImage container with
            | Some url => if JS.truthy url then Some url else None
            | None => None
            end
        | _ => None
        end
      else None
  | None => None
  end.

Definition resolvable (cell : Cell) (link : Anchor) : bool :=
  match resolvedImage cell link with
  | Some _ => true
  | None => false
  end.

(** The successfully built candidate links of a cell, in document order. *)
Definition resolvableLinks (cell : Cell) : list Anchor :=
  filter (resolvable cell) (userLinks cell).

(** The kind of a cell that no structural pattern captures. *)
Definition userKind (text : string) : NotificationType :=
  if test (DOMExtractor.MULTI_USER DOMExtractor.PATTERNS) text
  then MultiUser else UserInteraction.

(** A user record as [extractProfileData] hands it on. *)
Definition toProfileData (u : UserProfileData) : ProfileData :=
  Build_Profile (username u) (displayName u) (profileImageUrl u)
    (followersCount u) (followingCount u) (interactionTimestamp u)
    (interactionType u)
    (match notificationType u with
     | multi_user => MultiUser
     | user_interaction => UserInteraction
     end).

(** *** The Coordinator *)

(** The ProcessedMarker of a notification. *)
Definition isProcessed (page : BotDetector.Page) : bool :=
  BotDetector.hasAttribute (BotDetector.attributes page) "data-xbot-processed".

(** The action threshold. *)
Definition threshold : number := decimal 5 10.

(** Whether handling runs to its end: extraction yields a profile, and
    the interaction is either not persisted (probability at or below the
    threshold) or persisted with success. *)
Definition handledToTheEnd (fulfils : BotDetector.Storage)
  (extracted : Completion (option ProfileData)) : bool :=
  match extracted with
  | Normal (Some profileData) =>
      let analysis := ProfileAnalyzer.analyzeBotProbability profileData in
      if greaterThan (probability analysis) threshold
      then fulfils (username profileData) (interactionTimestamp profileData)
                   (interactionType profileData) (probability analysis)
                   (reasons analysis)
      else true
  | _ => false
  end.

End Spec.

(** ** Sample pages *)

Module Sample.
Import DOM.
Export Types.

Definition avatarOf (username : string) : Container :=
  {| profileImg := Some {| src := "https://pbs.twimg.com/profile_images/1/" ++ username |};
     bgElements := [] |}.

(** A cell whose avatar containers are those of [usernames]. *)
Definition avatars (usernames : list string) (selector : string)
  : Completion (option Container) :=
  match find (fun u => String.eqb selector (DOMExtractor.avatarSelector u)) usernames with
  | Some u => Normal (Some (avatarOf u))
  | None => Normal None
  end.

Definition linkTo (username : string) : Anchor :=
  {| href := Some ("/" ++ username); anchorText := Some username |}.

Definition cellOf (text : string) (usernames : list string) : Cell :=
  {| textContent := Some text;
     roleLinks := map linkTo usernames;
     querySelector := avatars usernames |}.

Definition elementOf (cell : Cell) : Element :=
  {| classList := []; closestCell := Some cell |}.

Definition clockAt (t : Z) : Clock :=
  {| readings := fun n => (t + Z.of_nat n)%Z; reads := 0 |}.

Definition freshPage : BotDetector.Page :=
  {| BotDetector.attributes := [];
     BotDetector.calls := [];
     BotDetector.clock := clockAt 1700000000000 |}.

Definition processedPage : BotDetector.Page :=
  {| BotDetector.attributes := [("data-xbot-processed", "true")];
     BotDetector.calls := [];
     BotDetector.clock := clockAt 1700000000000 |}.

Definition alwaysFulfils : BotDetector.Storage := fun _ _ _ _ _ => true.
Definition alwaysRejects : BotDetector.Storage := fun _ _ _ _ _ => false.

(** Two actors of a multi-user notification that has no verb. *)
Definition multiUserCell : Cell :=
  cellOf "New post notifications for Alice and Bob" ["alice"; "bob"].

(** The text of the spec's scenario, which has the verb but not the
    multi-user phrase. *)
Definition othersLikedCell : Cell :=
  cellOf "X and 3 others liked your post" ["alice"; "bob"].

(** The same actor linked twice, with both the phrase and the verb. *)
Definition likedTwiceCell : Cell :=
  cellOf "New post notifications for Alice, who liked your post" ["alice"; "alice"].

(** A trending entry that also names a pinned post and links to users. *)
Definition trendingPinnedCell : Cell :=
  cellOf "Trending in Canada: new pinned post in Example List" ["alice"; "bob"].

(** A cell with text and no link. *)
Definition plainCell : Cell := cellOf "Welcome back" [].

(** A follow by an account whose name trips the heuristics. *)
Definition spamCell : Cell := cellOf "spam12345 followed you" ["spam12345"].

(** A document without a feed, and one where the primary column appears
    once three timers have elapsed. *)
Definition emptyDocument : BotDetector.Document := fun _ => None.

Definition lateDocument (k : nat) : BotDetector.Document :=
  fun selector =>
    if (3 <=? k)%nat && String.eqb selector (BotDetector.attr "data-testid" "primaryColumn")
    then Some {| BotDetector.isHTMLElement := true; BotDetector.nodeId := 1 |}
    else None.

(** A community pseudo-account with no followers whose name also has a
    long run of digits. *)
Definition communityProfile : ProfileData :=
  Build_Profile "i/communities/1234567" "Community" "" zero zero 0 Follow UserInteraction.

End Sample.

(** ** Further notions: profiles and their flags *)

Module Notions.
Import RegExp DOM.
Export Spec.

Section Profiles.
Context {K : Type}.

(** The profile with another username. *)
Definition withUsername (u : string) (p : ProfileOf K) : ProfileOf K :=
  Build_Profile u (displayName p) (profileImageUrl p)
    (followersCount p) (followingCount p) (interactionTimestamp p)
    (interactionType p) (notificationType p).

(** A username heuristic as the scoring evaluates it: on the lower-cased
    username. *)
Definition heuristic (pat : pattern) (p : ProfileOf K) : bool :=
  test pat (JS.toLowerCase (username p)).

(** The community exemption applies. *)
Definition exempt (p : ProfileOf K) : bool :=
  test (ProfileAnalyzer.community ProfileAnalyzer.PATTERNS) (username p).

(** The Coordinator acts on the profile: its probability is above the
    threshold. *)
Definition flagged (p : ProfileOf K) : bool :=
  greaterThan (probability (ProfileAnalyzer.analyzeBotProbability p)) threshold.

End Profiles.

(** *** Phrases *)

(** A unit of a phrase: a lower-case letter or a space. *)
Definition plain (c : ascii) : bool :=
  JS.inRange 97 122 c || (JS.code c =? 32)%N.

Fixpoint allPlain (l : string) : bool :=
  match l with
  | EmptyString => true
  | String c l' => plain c && allPlain l'
  end.

(** The expression [/phrase/i]. *)
Definition phrase (l : string) : pattern := Pattern false (lit_i l) false.

(** Every code unit. *)
Definition allUnits : list ascii := map ascii_of_nat (seq 0 256).

(** One unit is matched by the pattern character [c] under the [i] flag
    exactly when its lower-case form is [c]. *)
Definition agreesOn (c c' : ascii) : bool :=
  implb (plain c)
        (Bool.eqb (nullable (deriv c' (chr_i c))) (Ascii.eqb (JS.lowerUnit c') c)).

(** *** Records *)

(** What a record built from a cell looks like: its username, display
    name and image address are not empty, its counts are 0, its
    interaction type and discriminator are those of the text of the cell,
    and its username is the path, without the leading slash, of a link of
    the cell that has no [/i/] in it. *)
Definition wellFormedRecord (cell : Cell) (u : UserProfileData) : Prop :=
  username u <> ""
  /\ displayName u <> ""
  /\ profileImageUrl u <> ""
  /\ followersCount u = zero
  /\ followingCount u = zero
  /\ interactionType u = DOMExtractor.determineInteractionType (loweredText cell)
  /\ notificationType u
     = (if test (DOMExtractor.MULTI_USER DOMExtractor.PATTERNS) (loweredText cell)
        then multi_user else user_interaction)
  /\ exists link,
       In link (roleLinks cell)
       /\ href link = Some (String "/" (username u))
       /\ JS.includes (String "/" (username u)) "/i/" = false.

(** The clock after one more reading. *)
Definition tick (c : Clock) : Clock :=
  {| readings := readings c; reads := S (reads c) |}.

(** The records of a result, none for [null] and for a structural kind. *)
Definition recordsOf (r : option DOMExtractor.NotificationData) : list UserProfileData :=
  match r with
  | Some nd =>
      match DOMExtractor.users nd with
      | Some us => us
      | None => []
      end
  | None => []
  end.

(** *** Image addresses *)

Definition isQuote (c : ascii) : bool :=
  Ascii.eqb c "'" || Ascii.eqb c JS.dquote.

(** Not a line terminator. *)
Definition isDot (c : ascii) : bool :=
  negb ((JS.code c =? 10)%N || (JS.code c =? 13)%N).

Fixpoint allDot (s : string) : bool :=
  match s with
  | EmptyString => true
  | String c s' => isDot c && allDot s'
  end.

(** The text [url(qXq')]. *)
Definition wrapUrl (q : ascii) (address : string) (q' : ascii) : string :=
  "url(" ++ String q (address ++ String q' ")").

(** *** The calls of the Coordinator *)

(** The calls one handling of an unmarked notification adds, given what
    extraction returned: the extraction; with a profile, its analysis;
    and for a flagged profile, the warning and the interaction record. *)
Definition newCalls (extracted : Completion (option ProfileData))
  : list BotDetector.Call :=
  BotDetector.ExtractProfileData
  :: match extracted with
     | Normal (Some profileData) =>
         let analysis := ProfileAnalyzer.analyzeBotProbability profileData in
         BotDetector.AnalyzeBotProbability (username profileData)
         :: (if flagged profileData
             then [ BotDetector.AddBotWarningUI (probability analysis)
                                                (reasons analysis);
                    BotDetector.RecordInteraction
                      (username profileData) (interactionTimestamp profileData)
                      (interactionType profileData) (probability analysis)
                      (reasons analysis) ]
             else [])
     | _ => []
     end.

(** How the promise of that handling settles: it rejects exactly when
    the interaction of a flagged profile cannot be persisted. *)
Definition settles (fulfils : BotDetector.Storage)
  (extracted : Completion (option ProfileData)) : Completion unit :=
  match extracted with
  | Normal (Some profileData) =>
      let analysis := ProfileAnalyzer.analyzeBotProbability profileData in
      if flagged profileData
         && negb (fulfils (username profileData) (interactionTimestamp profileData)
                          (interactionType profileData) (probability analysis)
                          (reasons analysis))
      then Throw else Normal tt
  | _ => Normal tt
  end.

(** A call that reaches the page or the store: a warning or an
    interaction record. *)
Definition isWarningOrRecord (c : BotDetector.Call) : bool :=
  match c with
  | BotDetector.AddBotWarningUI _ _ => true
  | BotDetector.RecordInteraction _ _ _ _ _ => true
  | _ => false
  end.

(** *** Probes of the feed *)

(** No selector of [sels] finds an [HTMLElement] in the document. *)
Definition noneIsHTMLElement (document : BotDetector.Document) (sels : list string)
  : Prop :=
  forall sel found,
    In sel sels -> document sel = Some found ->
    BotDetector.isHTMLElement found = false.

End Notions.

(** ** Further sample pages *)

Module MoreSamples.
Import DOM.
Export Types.

(** The two records of [Sample.multiUserCell] read at clock 0. *)
Definition multiUserRecords : list UserProfileData :=
  [ Build_Profile "alice" "alice" "https://pbs.twimg.com/profile_images/1/alice"
      zero zero 0 Follow multi_user;
    Build_Profile "bob" "bob" "https://pbs.twimg.com/profile_images/1/bob"
      zero zero 1 Follow multi_user ].

Definition multiUserData : DOMExtractor.NotificationData :=
  {| DOMExtractor.type := MultiUser;
     DOMExtractor.text := "new post notifications for alice and bob";
     DOMExtractor.users := Some multiUserRecords |}.

(** The sample clock after [n] readings. *)
Definition clockAfter (n : nat) : Clock :=
  {| readings := readings (Sample.clockAt 0); reads := n |}.

(** The profile of [Sample.spamCell] read at clock 0. *)
Definition spamProfile : ProfileData :=
  Build_Profile "spam12345" "spam12345"
    "https://pbs.twimg.com/profile_images/1/spam12345"
    zero zero 0 Follow UserInteraction.

(** The same username with followers and following. *)
Definition followedSpamProfile : ProfileData :=
  Build_Profile "spam12345" "spam12345"
    "https://pbs.twimg.com/profile_images/1/spam12345"
    (ofZ 500) (ofZ 300) 0 Follow UserInteraction.

(** A username with a double quote in it, on which the avatar selector
    does not parse. *)
Definition quotedName : string := "eve" ++ String JS.dquote "x".

(** A cell with a link that resolves and a link whose query throws. *)
Definition brokenCell : Cell :=
  {| textContent := Some "alice and eve liked your post";
     roleLinks := [Sample.linkTo "alice"; Sample.linkTo quotedName];
     querySelector := fun selector =>
       if String.eqb selector (DOMExtractor.avatarSelector quotedName)
       then Throw
       else Sample.avatars ["alice"] selector |}.

Definition sampleAddress : string := "https://pbs.twimg.com/profile_images/1/a.jpg".

Definition primaryColumn : BotDetector.Node :=
  {| BotDetector.isHTMLElement := true; BotDetector.nodeId := 1 |}.

(** A document in which every selector finds an element that is not an
    [HTMLElement]. *)
Definition foreignDocument : BotDetector.Document :=
  fun _ => Some {| BotDetector.isHTMLElement := false; BotDetector.nodeId := 2 |}.

(** The cell of [Sample.likedTwiceCell], with a [querySelector] that
    throws on the empty selector. *)
Definition pickyCell : Cell :=
  {| textContent := Some "New post notifications for Alice, who liked your post";
     roleLinks := [Sample.linkTo "alice"; Sample.linkTo "alice"];
     querySelector := fun selector =>
       if String.eqb selector "" then Throw
       else Sample.avatars ["alice"] selector |}.

End MoreSamples.

(* ===================================================================== *)
(** * Part II: properties *)
(* ===================================================================== *)

(** ** Strings *)

Section StringFacts.

Lemma append_empty_r (s : string) : s ++ "" = s.
Proof. induction s as [|c s IH]; simpl; [reflexivity | now rewrite IH]. Qed.

Lemma append_assoc (s1 s2 s3 : string) : (s1 ++ s2) ++ s3 = s1 ++ (s2 ++ s3).
Proof. induction s1 as [|c s1 IH]; simpl; [reflexivity | now rewrite IH]. Qed.

Lemma append_eq_empty (s1 s2 : string) :
  s1 ++ s2 = "" -> s1 = "" /\ s2 = "".
Proof. destruct s1; simpl; intros H; [auto | discriminate]. Qed.

Lemma append_eq_String (s1 s2 s : string) (c : ascii) :
  s1 ++ s2 = String c s ->
  (s1 = "" /\ s2 = String c s) \/ (exists s1', s1 = String c s1' /\ s = s1' ++ s2).
Proof.
  destruct s1 as [|c1 s1]; simpl; intros H.
  - left; auto.
  - right. inversion H; subst. now exists s1.
Qed.

Lemma occurs_append (c : ascii) (s1 s2 : string) :
  JS.occurs c (s1 ++ s2) <-> JS.occurs c s1 \/ JS.occurs c s2.
Proof. induction s1 as [|c1 s1 IH]; simpl; tauto. Qed.

Lemma lowerUnit_not_capital (c : ascii) : JS.inRange 65 90 (JS.lowerUnit c) = false.
Proof. destruct c as [[] [] [] [] [] [] [] []]; reflexivity. Qed.

(** No unit of a lower-cased text is one of [A-Z]. *)
Lemma toLowerCase_no_capital (s : string) (c : ascii) :
  JS.occurs c (JS.toLowerCase s) -> JS.inRange 65 90 c = false.
Proof.
  induction s as [|c' s IH]; simpl; [tauto |].
  intros [<- | H]; [apply lowerUnit_not_capital | auto].
Qed.

Lemma toLowerCase_idempotent (s : string) :
  JS.toLowerCase (JS.toLowerCase s) = JS.toLowerCase s.
Proof.
  induction s as [|c s IH]; simpl; [reflexivity |].
  rewrite IH. f_equal.
  destruct c as [[] [] [] [] [] [] [] []]; reflexivity.
Qed.

End StringFacts.

(** ** Regular expressions: the matcher decides the language *)

Section RegExpFacts.
Import RegExp.

Create HintDb re.
Local Hint Constructors Matches : re.

Lemma Matches_Void (s : string) : ~ Matches Void s.
Proof. intros H; inversion H. Qed.

Lemma Matches_Eps_inv (s : string) : Matches Eps s -> s = "".
Proof. intros H; inversion H; reflexivity. Qed.

Lemma Matches_Cat_inv (r1 r2 : regex) (s : string) :
  Matches (Cat r1 r2) s ->
  exists s1 s2, s = s1 ++ s2 /\ Matches r1 s1 /\ Matches r2 s2.
Proof. intros H; inversion H; subst; eauto. Qed.

Lemma Matches_Cls_inv (ranges : list (ascii * ascii)) (s : string) :
  Matches (Cls ranges) s -> exists c, s = String c "" /\ inClass ranges c = true.
Proof. intros H; inversion H; subst; eauto. Qed.

Lemma nullable_Matches (r : regex) : nullable r = true <-> Matches r "".
Proof.
  split.
  - induction r; simpl; intros H; try discriminate; auto with re.
    + apply andb_prop in H as [H1 H2].
      change "" with ("" ++ ""). auto with re.
    + apply orb_prop in H as [H | H]; auto with re.
  - intros H. remember "" as s eqn:Es.
    induction H; simpl; try reflexivity; try discriminate.
    + apply append_eq_empty in Es as [-> ->].
      rewrite IHMatches1, IHMatches2; auto.
    + rewrite IHMatches; auto.
    + rewrite IHMatches; auto using orb_true_r.
Qed.

Lemma cat_Matches (r1 r2 : regex) (s : string) :
  Matches (cat r1 r2) s <-> Matches (Cat r1 r2) s.
Proof.
  split.
  - destruct r1, r2; simpl; intros H;
      try exact H; try (now apply Matches_Void in H);
      change s with ("" ++ s); auto with re.
  - intros H. apply Matches_Cat_inv in H as (s1 & s2 & -> & H1 & H2).
    destruct r1, r2; simpl;
      try (now apply Matches_Void in H1); try (now apply Matches_Void in H2);
      try (apply Matches_Eps_inv in H1; subst; simpl; assumption);
      auto with re.
Qed.

Lemma alt_Matches (r1 r2 : regex) (s : string) :
  Matches (alt r1 r2) s <-> Matches (Alt r1 r2) s.
Proof.
  split.
  - destruct r1, r2; simpl; intros H; auto with re.
  - intros H. inversion H; subst;
      destruct r1, r2; simpl; auto with re;
      match goal with Hv : Matches Void _ |- _ => now apply Matches_Void in Hv end.
Qed.

(** A non-empty match of a repetition starts with a non-empty match of
    its body. *)
Lemma Matches_Star_String (r : regex) (c : ascii) (s : string) :
  Matches (Star r) (String c s) ->
  exists s1 s2, s = s1 ++ s2 /\ Matches r (String c s1) /\ Matches (Star r) s2.
Proof.
  intros H. remember (Star r) as r' eqn:Er. remember (String c s) as w eqn:Ew.
  induction H; try discriminate.
  inversion Er; subst r0.
  apply append_eq_String in Ew as [[-> ->] | (s1' & -> & ->)].
  - apply IHMatches2; reflexivity.
  - exists s1', s2. auto.
Qed.

Lemma deriv_Matches (r : regex) (c : ascii) (s : string) :
  Matches (deriv c r) s <-> Matches r (String c s).
Proof.
  revert s. induction r as [| | ranges | r1 IH1 r2 IH2 | r1 IH1 r2 IH2 | r IH];
    intros s; simpl.
  - split; intros H; inversion H.
  - split; intros H; inversion H.
  - destruct (inClass ranges c) eqn:E; split; intros H.
    + apply Matches_Eps_inv in H as ->. auto with re.
    + inversion H; subst. constructor.
    + now apply Matches_Void in H.
    + inversion H; subst. congruence.
  - assert (Hcat : Matches (cat (deriv c r1) r2) s <->
                   exists s1 s2, s = s1 ++ s2 /\ Matches r1 (String c s1) /\ Matches r2 s2).
    { rewrite cat_Matches. split.
      - intros H. apply Matches_Cat_inv in H as (s1 & s2 & -> & H1 & H2).
        exists s1, s2. rewrite <- IH1. auto.
      - intros (s1 & s2 & -> & H1 & H2). constructor; [now apply IH1 | assumption]. }
    destruct (nullable r1) eqn:N.
    + rewrite alt_Matches. split.
      * intros H. inversion H; subst.
        -- apply Hcat in H3 as (s1 & s2 & -> & H1 & H2).
           change (String c (s1 ++ s2)) with (String c s1 ++ s2). auto with re.
        -- change (String c s) with ("" ++ String c s).
           constructor; [now apply nullable_Matches | now apply IH2].
      * intros H. apply Matches_Cat_inv in H as (s1 & s2 & E & H1 & H2).
        symmetry in E. apply append_eq_String in E as [[-> ->] | (s1' & -> & ->)].
        -- apply MAltR. now apply IH2.
        -- apply MAltL. apply Hcat. eauto.
    + rewrite Hcat. split.
      * intros (s1 & s2 & -> & H1 & H2).
        change (String c (s1 ++ s2)) with (String c s1 ++ s2). auto with re.
      * intros H. apply Matches_Cat_inv in H as (s1 & s2 & E & H1 & H2).
        symmetry in E. apply append_eq_String in E as [[-> ->] | (s1' & -> & ->)].
        -- apply nullable_Matches in H1. congruence.
        -- eauto.
  - rewrite alt_Matches. split; intros H; inversion H; subst.
    + apply MAltL. now apply IH1.
    + apply MAltR. now apply IH2.
    + apply MAltL. now apply IH1.
    + apply MAltR. now apply IH2.
  - rewrite cat_Matches. split.
    + intros H. apply Matches_Cat_inv in H as (s1 & s2 & -> & H1 & H2).
      change (String c (s1 ++ s2)) with (String c s1 ++ s2).
      constructor; [now apply IH | assumption].
    + intros H. apply Matches_Star_String in H as (s1 & s2 & -> & H1 & H2).
      constructor; [now apply IH | assumption].
Qed.

(** [matchHere] finds a match that starts where the text starts. *)
Lemma matchHere_spec (e : bool) (r : regex) (s : string) :
  matchHere e r s = true <->
  exists m post, s = m ++ post /\ Matches r m /\ (e = true -> post = "").
Proof.
  revert r. induction s as [|c s IH]; intros r; simpl.
  - rewrite nullable_Matches. split.
    + intros H. exists "", "". auto.
    + intros (m & post & E & H & _).
      symmetry in E. apply append_eq_empty in E as [-> _]. assumption.
  - rewrite orb_true_iff, andb_true_iff, negb_true_iff, IH, nullable_Matches.
    split.
    + intros [[H ->] | (m & post & -> & H & Hpost)].
      * exists "", (String c s). repeat split; [assumption | discriminate].
      * exists (String c m), post. rewrite <- deriv_Matches. auto.
    + intros (m & post & E & H & Hpost).
      symmetry in E. apply append_eq_String in E as [[-> ->] | (m' & -> & ->)].
      * left. split; [assumption |].
        destruct e; [specialize (Hpost eq_refl); discriminate | reflexivity].
      * right. exists m', post. rewrite deriv_Matches. auto.
Qed.

(** [search] finds a match anywhere in the text. *)
Lemma search_spec (e : bool) (r : regex) (s : string) :
  search e r s = true <->
  exists pre m post,
    s = pre ++ m ++ post /\ Matches r m /\ (e = true -> post = "").
Proof.
  induction s as [|c s IH]; simpl.
  - rewrite orb_false_r, nullable_Matches. split.
    + intros H. exists "", "", "". auto.
    + intros (pre & m & post & E & H & _).
      symmetry in E. apply append_eq_empty in E as [_ E].
      apply append_eq_empty in E as [-> _]. assumption.
  - change ((nullable r && negb e) || matchHere e (deriv c r) s)
      with (matchHere e r (String c s)).
    rewrite orb_true_iff, matchHere_spec, IH. split.
    + intros [(m & post & E & H) | (pre & m & post & -> & H)].
      * exists "", m, post. auto.
      * exists (String c pre), m, post. auto.
    + intros (pre & m & post & E & H).
      destruct pre as [|c' pre]; simpl in E.
      * left. eauto.
      * right. inversion E; subst. eauto.
Qed.

(** [test p s] holds exactly when some part of [s] is in the language of
    the body of [p], a part that starts where [s] starts under [^] and
    ends where [s] ends under [$]. *)
Lemma test_spec (p : pattern) (s : string) :
  test p s = true <->
  exists pre m post,
    s = pre ++ m ++ post /\ Matches (body p) m
    /\ (fromStart p = true -> pre = "") /\ (toEnd p = true -> post = "").
Proof.
  unfold test. destruct (fromStart p).
  - rewrite matchHere_spec. split.
    + intros (m & post & E & H & Hpost). exists "", m, post. auto.
    + intros (pre & m & post & E & H & Hpre & Hpost).
      rewrite (Hpre eq_refl) in E. simpl in E. exists m, post. auto.
  - rewrite search_spec. split.
    + intros (pre & m & post & E & H & Hpost).
      exists pre, m, post. repeat split; auto. discriminate.
    + intros (pre & m & post & E & H & _ & Hpost). exists pre, m, post. auto.
Qed.

End RegExpFacts.

(** ** Numbers *)

Section NumberFacts.
Import Number.

(** The binary64 values of the decimal literals of the program. *)
Lemma decimal_literals :
  decimal 3 10 = S754_finite false 5404319552844595 (-54)
  /\ decimal 2 10 = S754_finite false 7205759403792794 (-55)
  /\ decimal 9 10 = S754_finite false 8106479329266893 (-53)
  /\ decimal 5 10 = S754_finite false 4503599627370496 (-53).
Proof. repeat split; vm_compute; reflexivity. Qed.

(** Each is within half a unit in the last place of the decimal. *)
Lemma decimal_literals_nearest :
  (Z.abs (10 * 5404319552844595 - 3 * 2 ^ 54) * 2 <= 10)%Z
  /\ (Z.abs (10 * 7205759403792794 - 2 * 2 ^ 55) * 2 <= 10)%Z
  /\ (Z.abs (10 * 8106479329266893 - 9 * 2 ^ 53) * 2 <= 10)%Z
  /\ valid_binary prec emax (decimal 3 10) = true
  /\ valid_binary prec emax (decimal 2 10) = true
  /\ valid_binary prec emax (decimal 9 10) = true.
Proof. repeat split; vm_compute; congruence. Qed.

End NumberFacts.

(** ** The scoring engine *)

Section ScoringFacts.
Import RegExp ProfileAnalyzer Spec.
Context {K : Type}.

Lemma inClass_single (c c' : ascii) : inClass (range c c) c' = true <-> c' = c.
Proof.
  unfold inClass, range, JS.inRange, JS.code. simpl.
  rewrite orb_false_r, andb_true_iff, !N.leb_le. split.
  - intros [H1 H2].
    rewrite <- (ascii_N_embedding c), <- (ascii_N_embedding c').
    f_equal. lia.
  - intros ->. lia.
Qed.

(** A literal matches itself only. *)
Lemma Matches_lit (l m : string) : Matches (lit l) m <-> m = l.
Proof.
  revert m. induction l as [|c l IH]; intros m.
  - simpl. split; [apply Matches_Eps_inv | intros ->; constructor].
  - assert (Hc : forall w, Matches (chr c) w <-> w = String c "").
    { intros w. split.
      - intros H. apply Matches_Cls_inv in H as (c' & -> & H).
        apply inClass_single in H. now subst.
      - intros ->. constructor. now apply inClass_single. }
    destruct l as [|c2 l].
    + simpl. apply Hc.
    + change (lit (String c (String c2 l))) with (Cat (chr c) (lit (String c2 l))).
      split.
      * intros H. apply Matches_Cat_inv in H as (s1 & s2 & -> & H1 & H2).
        apply Hc in H1. apply IH in H2. now subst.
      * intros ->. change (String c (String c2 l)) with (String c "" ++ String c2 l).
        constructor; [now apply Hc | now apply IH].
Qed.

(** The community pattern matches the usernames that begin with the
    community prefix. *)
Lemma community_matches_prefix (username : string) :
  test (community PATTERNS) username = true <->
  exists rest, username = "i/communities/" ++ rest.
Proof.
  rewrite test_spec. split.
  - intros (pre & m & post & -> & H & Hpre & _).
    rewrite (Hpre eq_refl).
    change (body (community PATTERNS)) with (lit "i/communities/") in H.
    apply Matches_lit in H. subst m. now exists post.
  - intros (rest & ->). exists "", "i/communities/", rest.
    repeat split; try discriminate.
    change (Matches (lit "i/communities/") "i/communities/").
    now apply Matches_lit.
Qed.

(** The mixed-case pattern asks for a unit of [A-Z], and a lower-cased
    text has none. *)
Lemma randomLetters_test_lowered (u : string) :
  test (randomLetters PATTERNS) (JS.toLowerCase u) = false.
Proof.
  destruct (test (randomLetters PATTERNS) (JS.toLowerCase u)) eqn:E; [| reflexivity].
  exfalso. apply test_spec in E as (pre & m & post & Es & H & _).
  change (body (randomLetters PATTERNS))
    with (Cat (Cat upper (Cat upper (Star upper))) (plus digit)) in H.
  apply Matches_Cat_inv in H as (s1 & s2 & -> & H1 & _).
  apply Matches_Cat_inv in H1 as (s11 & s12 & -> & H11 & _).
  apply Matches_Cls_inv in H11 as (c & -> & Hc).
  assert (Ho : JS.occurs c (JS.toLowerCase u)).
  { rewrite Es. apply occurs_append. right. simpl. auto. }
  apply toLowerCase_no_capital in Ho.
  unfold inClass, range in Hc. simpl in Hc. rewrite orb_false_r in Hc.
  change (JS.code "A") with 65%N in Hc. change (JS.code "Z") with 90%N in Hc.
  congruence.
Qed.

(** Splits on the outcome of every scoring condition of [profile]. *)
Ltac case_conditions profile :=
  unfold noFollowersCondition;
  destruct (strictEq (followersCount profile) zero
            && strictEq (followingCount profile) zero);
  destruct (test (randomAlphanumeric PATTERNS) (JS.toLowerCase (username profile)));
  destruct (test (manyNumbers PATTERNS) (JS.toLowerCase (username profile)));
  destruct (test (botKeywords PATTERNS) (JS.toLowerCase (username profile)));
  destruct (test (randomSuffix PATTERNS) (JS.toLowerCase (username profile)));
  destruct (test (numericSuffix PATTERNS) (JS.toLowerCase (username profile)));
  destruct (test (randomLetters PATTERNS) (JS.toLowerCase (username profile))).

(** The score before the cap is the sum of the weights of the matched
    conditions. *)
Lemma calculateBotProbability_accumulated (profile : ProfileOf K) :
  calculateBotProbability profile = Math_min (accumulated profile) cap.
Proof.
  unfold calculateBotProbability, accumulated, matchedConditions, conditions.
  cbv zeta. case_conditions profile; reflexivity.
Qed.

(** C3: a profile whose username matches the community-exemption pattern
    scores probability 0 with no reasons, whatever its follower counts
    and whatever else its username matches. *)
Theorem community_exemption (profile : ProfileOf K) :
  test (community PATTERNS) (username profile) = true ->
  analyzeBotProbability profile = {| probability := zero; reasons := [] |}.
Proof.
  intros H. unfold analyzeBotProbability. rewrite H. reflexivity.
Qed.

(** C4: the probability of every profile lies between 0 and 0.9, and so
    stays below 1. *)
Theorem probability_bounds (profile : ProfileOf K) :
  lessEq zero (probability (analyzeBotProbability profile)) = true
  /\ lessEq (probability (analyzeBotProbability profile)) (decimal 9 10) = true
  /\ lessThan (probability (analyzeBotProbability profile)) (decimal 1 1) = true
  /\ lessEq zero (calculateBotProbability profile) = true
  /\ lessEq (calculateBotProbability profile) (decimal 9 10) = true.
Proof.
  unfold analyzeBotProbability, calculateBotProbability. cbv zeta.
  destruct (test (community PATTERNS) (username profile));
    case_conditions profile; vm_compute; auto.
Qed.

(** C5: outside the exemption the reasons are the reason texts of the
    matched conditions, one each and in evaluation order, and the
    probability is the capped sum of the weights of those same
    conditions; under the exemption the probability is 0 and there are no
    reasons. *)
Theorem reasons_mirror_matched_conditions (profile : ProfileOf K) :
  if test (community PATTERNS) (username profile)
  then probability (analyzeBotProbability profile) = zero
       /\ reasons (analyzeBotProbability profile) = []
  else reasons (analyzeBotProbability profile)
         = map reason (matchedConditions profile)
       /\ List.length (reasons (analyzeBotProbability profile))
         = List.length (matchedConditions profile)
       /\ probability (analyzeBotProbability profile)
         = Math_min (accumulated profile) cap.
Proof.
  unfold analyzeBotProbability.
  destruct (test (community PATTERNS) (username profile)); [split; reflexivity |].
  cbv zeta. cbn [probability reasons].
  rewrite calculateBotProbability_accumulated.
  unfold matchedConditions, conditions. cbv zeta.
  case_conditions profile; repeat split; reflexivity.
Qed.

(** C10: the mixed-case random-letters pattern never matches the
    lower-cased username; its reason never appears, it is never among the
    matched conditions, and the score is the capped sum over the six
    other conditions. *)
Theorem randomLetters_never_matches (profile : ProfileOf K) :
  test (randomLetters PATTERNS) (JS.toLowerCase (username profile)) = false
  /\ ~ In "Username has random letters and numbers"
         (reasons (analyzeBotProbability profile))
  /\ ~ In (true, randomLettersScore SCORES, "Username has random letters and numbers")
         (matchedConditions profile)
  /\ calculateBotProbability profile
     = Math_min (fold_left add
                   (map weight (filter matched (removelast (conditions profile))))
                   zero)
                cap.
Proof.
  pose proof (randomLetters_test_lowered (username profile)) as Hnever.
  split; [exact Hnever |]. split; [| split].
  - unfold analyzeBotProbability. cbv zeta. rewrite Hnever.
    destruct (test (community PATTERNS) (username profile)); [simpl; tauto |].
    case_conditions profile; cbn; intuition discriminate.
  - intros Hin. apply filter_In in Hin as [Hin _].
    unfold conditions in Hin. cbv zeta in Hin. rewrite Hnever in Hin.
    cbn [In] in Hin.
    repeat (destruct Hin as [Hin | Hin];
            [first [ apply (f_equal reason) in Hin; discriminate Hin
                   | apply (f_equal matched) in Hin; discriminate Hin ] |]).
    exact Hin.
  - unfold calculateBotProbability, conditions. cbv zeta. rewrite Hnever.
    case_conditions profile; reflexivity.
Qed.

(** C6: the username spam12345 with no followers and no following scores
    exactly 0.9, the accumulated weights being above the cap, and its
    reasons hold the four named texts in evaluation order. *)
Theorem spam12345_scores_the_cap
  (name image : string) (timestamp : Z) (interaction : InteractionType) (k : K) :
  probability (analyzeBotProbability
                 (Build_Profile "spam12345" name image zero zero
                                timestamp interaction k))
  = decimal 9 10
  /\ lessThan (decimal 9 10)
       (accumulated (Build_Profile "spam12345" name image zero zero
                                   timestamp interaction k)) = true
  /\ reasons (analyzeBotProbability
                (Build_Profile "spam12345" name image zero zero
                               timestamp interaction k))
     = [ "No followers or following";
         "Random alphanumeric username";
         "Username contains many numbers";
         "Username contains bot-like keywords";
         "Username has random number suffix";
         "Username ends with many numbers" ]
  /\ isSubsequence
       [ "No followers or following";
         "Username contains many numbers";
         "Username contains bot-like keywords";
         "Username ends with many numbers" ]
       (reasons (analyzeBotProbability
                   (Build_Profile "spam12345" name image zero zero
                                  timestamp interaction k)))
     = true.
Proof. repeat split; vm_compute; reflexivity. Qed.

End ScoringFacts.

(** ** The extraction engine *)

Section ExtractionFacts.
Import RegExp DOM DOMExtractor Spec.

Lemma isEmpty_nil {A : Type} (xs : list A) : isEmpty xs = true <-> xs = [].
Proof. destruct xs; simpl; split; congruence. Qed.

(** What the function mapped over the links returns for a link whose
    avatar query, if it is made, does not throw: a record for a link that
    resolves, read off the link, the text and the clock, and [null] for
    one that does not.  The query is made for a username that is not
    empty. *)
Lemma buildUser_resolved (cell : Cell) (text : string) (link : Anchor) (clock : Clock) :
  (linkUsername link <> "" ->
   querySelector cell (avatarSelector (linkUsername link)) <> Throw) ->
  match resolvedImage cell link with
  | Some url =>
      exists name,
        buildUser cell text link clock
        = (Normal (Some (Build_Profile (linkUsername link) name url zero zero
                           (readings clock (reads clock))
                           (determineInteractionType text)
                           (if test (MULTI_USER PATTERNS) text
                            then multi_user else user_interaction))),
           {| readings := readings clock; reads := S (reads clock) |})
  | None => buildUser cell text link clock = (Normal None, clock)
  end.
Proof.
  unfold resolvedImage, buildUser, linkUsername.
  destruct (href link) as [h |]; simpl; [| reflexivity].
  destruct (JS.truthy (JS.slice1 h)) eqn:Eu; simpl; [| reflexivity].
  intros Hq.
  assert (Hne : JS.slice1 h <> "")
    by (destruct (JS.slice1 h); [discriminate Eu | discriminate]).
  specialize (Hq Hne).
  unfold bind, lift.
  destruct (querySelector cell (avatarSelector (JS.slice1 h))) as [[container |] |] eqn:Eq;
    [| reflexivity | contradiction].
  destruct (extractProfileImage container) as [url |]; [| reflexivity].
  destruct (JS.truthy url); simpl; [| reflexivity].
  eexists. reflexivity.
Qed.

(** The records built over a list of links: one per link that resolves,
    in the order of the links. *)
Lemma mapM_buildUser (cell : Cell) (text : string) (links : list Anchor) (clock : Clock) :
  Forall (fun link =>
            linkUsername link <> "" ->
            querySelector cell (avatarSelector (linkUsername link)) <> Throw)
         links ->
  exists built clock',
    mapM (buildUser cell text) links clock = (Normal built, clock')
    /\ map username (nonNull built) = map linkUsername (filter (resolvable cell) links)
    /\ Forall (fun u => interactionType u = determineInteractionType text
                        /\ notificationType u
                           = if test (MULTI_USER PATTERNS) text
                             then multi_user else user_interaction)
              (nonNull built).
Proof.
  intros Hq. revert clock. induction links as [| link links IH]; intros clock.
  - exists [], clock. simpl. auto.
  - inversion Hq as [| ? ? Hlink Hlinks]; subst. specialize (IH Hlinks).
    simpl. unfold bind at 1. unfold resolvable at 1.
    pose proof (buildUser_resolved cell text link clock Hlink) as Hb.
    destruct (resolvedImage cell link) as [url |].
    + destruct Hb as (name & ->).
      destruct (IH {| readings := readings clock; reads := S (reads clock) |})
        as (built & clock' & E & Hn & Hf).
      unfold bind, ret. rewrite E.
      eexists. exists clock'. split; [reflexivity |].
      simpl. split; [now rewrite Hn | constructor; auto].
    + rewrite Hb.
      destruct (IH clock) as (built & clock' & E & Hn & Hf).
      unfold bind, ret. rewrite E.
      eexists. exists clock'. split; [reflexivity |]. simpl. auto.
Qed.

(** On a text that no structural pattern captures, the three tests of
    [parseNotification] fail. *)
Lemma structuralKind_None (text : string) :
  structuralKind text = None ->
  test (PINNED_POST PATTERNS) text = false
  /\ test (TRENDING PATTERNS) text = false
  /\ test (COMMUNITY_POST PATTERNS) text = false.
Proof.
  unfold structuralKind.
  destruct (test (PINNED_POST PATTERNS) text); [discriminate |].
  destruct (test (TRENDING PATTERNS) text); [discriminate |].
  destruct (test (COMMUNITY_POST PATTERNS) text); [discriminate | auto].
Qed.

Lemma nonNull_nil_filter (cell : Cell) (links : list Anchor) (built : list UserProfileData) :
  map username built = map linkUsername (filter (resolvable cell) links) ->
  links = [] -> built = [].
Proof. intros H ->. destruct built; [reflexivity | discriminate]. Qed.

(** C1 (amended): for a cell that no structural pattern captures and
    none of whose avatar queries throws (one is made for each user link
    with a username that is not empty), [parseNotification] returns one
    record per resolvable user link, in link order and duplicates kept;
    every record carries the interaction type read from the text, so that
    with the multi-user phrase, the verb liked and two resolvable links
    the kind is MultiUser and both records are Likes;
    [extractProfileData] hands on the first record only. *)
Theorem parseNotification_one_record_per_link (cell : Cell) (clock : Clock) :
  structuralKind (loweredText cell) = None ->
  Forall (fun link =>
            linkUsername link <> "" ->
            querySelector cell (avatarSelector (linkUsername link)) <> Throw)
         (userLinks cell) ->
  exists (built : list UserProfileData) (clock' : Clock),
    parseNotification cell clock
    = (Normal (if isEmpty built then None
               else Some {| type := userKind (loweredText cell);
                            text := loweredText cell;
                            users := Some built |}),
       clock')
    /\ map username built = map linkUsername (resolvableLinks cell)
    /\ Forall (fun u => interactionType u
                        = determineInteractionType (loweredText cell)) built
    /\ (test (MULTI_USER PATTERNS) (loweredText cell) = true ->
        test (LIKE PATTERNS) (loweredText cell) = true ->
        List.length (resolvableLinks cell) = 2 ->
        userKind (loweredText cell) = MultiUser
        /\ List.length built = 2
        /\ Forall (fun u => interactionType u = Like) built)
    /\ (forall element : Element,
          contains (classList element) "xbd-warning" = false ->
          closestCell element = Some cell ->
          extractProfileData element clock
          = (Normal (option_map toProfileData (hd_error built)), clock')).
Proof.
  intros Hs Hq.
  apply structuralKind_None in Hs as (Hp & Ht & Hc).
  destruct (mapM_buildUser cell (loweredText cell) (userLinks cell) clock Hq)
    as (results & clock' & E & Hn & Hf).
  assert (Hparse :
    parseNotification cell clock
    = (Normal (if isEmpty (nonNull results) then None
               else Some {| type := userKind (loweredText cell);
                            text := loweredText cell;
                            users := Some (nonNull results) |}),
       clock')).
  { unfold parseNotification. fold (loweredText cell). cbv zeta.
    rewrite Hp, Ht, Hc. fold (userLinks cell).
    destruct (isEmpty (userLinks cell)) eqn:Ee.
    - apply isEmpty_nil in Ee.
      rewrite (nonNull_nil_filter cell _ _ Hn Ee).
      unfold mapM in E. rewrite Ee in E. inversion E. reflexivity.
    - unfold bind. rewrite E. unfold userKind.
      destruct (isEmpty (nonNull results)); reflexivity. }
  exists (nonNull results), clock'.
  split; [exact Hparse |]. split; [exact Hn |].
  assert (Hty : Forall (fun u => interactionType u
                               = determineInteractionType (loweredText cell))
                       (nonNull results)).
  { eapply Forall_impl; [| exact Hf]. simpl. tauto. }
  split; [exact Hty |]. split.
  - intros Hm Hl Hlen. split; [| split].
    + unfold userKind. now rewrite Hm.
    + apply (f_equal (@List.length string)) in Hn.
      rewrite !length_map in Hn. exact (eq_trans Hn Hlen).
    + eapply Forall_impl; [| exact Hty]. simpl. intros u ->.
      unfold determineInteractionType. now rewrite Hl.
  - intros element Hw He.
    unfold extractProfileData, catch, extractProfileData_try.
    rewrite Hw, He. unfold bind. rewrite Hparse.
    destruct (nonNull results) as [| u us]; simpl; [reflexivity |].
    unfold userKind.
    destruct (test (MULTI_USER PATTERNS) (loweredText cell)); reflexivity.
Qed.

(** C1 (as stated) fails: a cell with the multi-user phrase and two
    resolvable links yields two Follow records, the text of the scenario
    does not have the multi-user phrase and is a UserInteraction, and
    [extractProfileData] returns one record for either. *)
Lemma multi_user_records_are_not_all_likes :
  structuralKind (loweredText Sample.multiUserCell) = None
  /\ test (MULTI_USER PATTERNS) (loweredText Sample.multiUserCell) = true
  /\ map (resolvable Sample.multiUserCell) (userLinks Sample.multiUserCell)
     = [true; true]
  /\ option_map (fun nd => (type nd, option_map (map (fun u => (username u, interactionType u))) (users nd)))
       (match fst (parseNotification Sample.multiUserCell (Sample.clockAt 0)) with
        | Normal r => r
        | Throw => None
        end)
     = Some (MultiUser, Some [("alice", Follow); ("bob", Follow)])
  /\ test (MULTI_USER PATTERNS) (loweredText Sample.othersLikedCell) = false
  /\ option_map type
       (match fst (parseNotification Sample.othersLikedCell (Sample.clockAt 0)) with
        | Normal r => r
        | Throw => None
        end)
     = Some UserInteraction
  /\ (match fst (extractProfileData (Sample.elementOf Sample.multiUserCell)
                                    (Sample.clockAt 0)) with
      | Normal (Some p) => Some (username p, interactionType p, notificationType p)
      | _ => None
      end)
     = Some ("alice", Follow, MultiUser).
Proof. repeat split; vm_compute; reflexivity. Qed.

(** C7: a cell whose lower-cased text matches a structural pattern is of
    the first such kind in the order pinned, trending, community, and has
    no user records, whatever links it holds; [extractProfileData]
    returns [null] for it. *)
Theorem structural_kind_short_circuits
  (cell : Cell) (clock : Clock) (kind : NotificationType) :
  structuralKind (loweredText cell) = Some kind ->
  parseNotification cell clock
  = (Normal (Some {| type := kind; text := loweredText cell; users := None |}), clock)
  /\ (forall element : Element,
        closestCell element = Some cell ->
        extractProfileData element clock = (Normal None, clock))
  /\ (kind = PinnedPost <->
      test (PINNED_POST PATTERNS) (loweredText cell) = true)
  /\ (kind = Trending <->
      test (PINNED_POST PATTERNS) (loweredText cell) = false
      /\ test (TRENDING PATTERNS) (loweredText cell) = true)
  /\ (kind = CommunityPost <->
      test (PINNED_POST PATTERNS) (loweredText cell) = false
      /\ test (TRENDING PATTERNS) (loweredText cell) = false
      /\ test (COMMUNITY_POST PATTERNS) (loweredText cell) = true).
Proof.
  intros Hs.
  assert (Hparse :
    parseNotification cell clock
    = (Normal (Some {| type := kind; text := loweredText cell; users := None |}),
       clock)).
  { unfold parseNotification. fold (loweredText cell). cbv zeta.
    unfold structuralKind in Hs.
    destruct (test (PINNED_POST PATTERNS) (loweredText cell));
      [inversion Hs; reflexivity |].
    destruct (test (TRENDING PATTERNS) (loweredText cell));
      [inversion Hs; reflexivity |].
    destruct (test (COMMUNITY_POST PATTERNS) (loweredText cell));
      [inversion Hs; reflexivity | discriminate]. }
  split; [exact Hparse |]. split.
  - intros element He.
    unfold extractProfileData, catch, extractProfileData_try.
    destruct (contains (classList element) "xbd-warning"); [reflexivity |].
    rewrite He. unfold bind. rewrite Hparse. reflexivity.
  - unfold structuralKind in Hs.
    destruct (test (PINNED_POST PATTERNS) (loweredText cell));
      [inversion Hs; repeat split; intros; intuition congruence |].
    destruct (test (TRENDING PATTERNS) (loweredText cell));
      [inversion Hs; repeat split; intros; intuition congruence |].
    destruct (test (COMMUNITY_POST PATTERNS) (loweredText cell));
      [inversion Hs; repeat split; intros; intuition congruence | discriminate].
Qed.

End ExtractionFacts.

(** ** The Coordinator *)

Section CoordinatorFacts.
Import DOM BotDetector Spec.

Lemma hasAttribute_setAttribute (attrs : list (string * string)) (name value : string) :
  hasAttribute (setAttribute attrs name value) name = true.
Proof.
  unfold setAttribute. destruct (hasAttribute attrs name) eqn:E.
  - unfold hasAttribute in *. induction attrs as [| kv attrs IH]; simpl in *.
    + discriminate.
    + destruct (String.eqb (fst kv) name) eqn:Ek; simpl.
      * now rewrite String.eqb_refl.
      * rewrite Ek. simpl. apply IH. exact E.
  - unfold hasAttribute. rewrite existsb_app. simpl.
    rewrite String.eqb_refl. apply orb_true_iff. right. reflexivity.
Qed.

(** The [catch] clause leaves no exception to the caller. *)
Lemma extractProfileData_returns (element : Element) (c : Clock) :
  fst (DOMExtractor.extractProfileData element c) <> Throw.
Proof.
  unfold DOMExtractor.extractProfileData, catch.
  destruct (DOMExtractor.extractProfileData_try element c) as [[r |] c'];
    simpl; discriminate.
Qed.

(** C2 (amended): for a notification whose marker is not set, the marker
    is set at the end exactly when extraction yields a profile and the
    interaction is either not persisted, the probability being at or
    below the threshold, or persisted with success; otherwise the
    attributes are left as they were. *)
Theorem marker_set_exactly_when_handled
  (fulfils : Storage) (notification : Element) (page : Page) :
  isProcessed page = false ->
  isProcessed (snd (processNotification fulfils notification page))
  = handledToTheEnd fulfils
      (fst (DOMExtractor.extractProfileData notification (clock page)))
  /\ attributes (snd (processNotification fulfils notification page))
     = if handledToTheEnd fulfils
            (fst (DOMExtractor.extractProfileData notification (clock page)))
       then setAttribute (attributes page) "data-xbot-processed" "true"
       else attributes page.
Proof.
  unfold isProcessed. intros Hm.
  unfold processNotification. rewrite Hm.
  unfold bind, domExtractor_extractProfileData, bind, logCall, onClock.
  cbn [attributes calls clock].
  pose proof (extractProfileData_returns notification (clock page)) as Hr.
  destruct (DOMExtractor.extractProfileData notification (clock page))
    as [[[profileData |] |] c]; cbn [fst snd] in *.
  - unfold handledToTheEnd, profileAnalyzer_analyzeBotProbability, bind, logCall, ret.
    cbn [attributes calls clock]. unfold threshold.
    set (analysis := ProfileAnalyzer.analyzeBotProbability profileData).
    destruct (greaterThan (probability analysis) (decimal 5 10)).
    + unfold uiManager_addBotWarningUI, storageService_recordInteraction,
        bind, logCall, ret, throw, markProcessed.
      cbn [attributes calls clock].
      destruct (fulfils (username profileData) (interactionTimestamp profileData)
                        (interactionType profileData) (probability analysis)
                        (reasons analysis));
        cbn [fst snd attributes];
        [rewrite hasAttribute_setAttribute | rewrite Hm]; auto.
    + unfold markProcessed. cbn [fst snd attributes].
      rewrite hasAttribute_setAttribute. auto.
  - unfold ret. cbn [fst snd attributes handledToTheEnd]. rewrite Hm. auto.
  - congruence.
Qed.

(** C2 (as stated) fails: a cell without links is left unmarked, and so is
    the cell of a flagged account when the interaction cannot be
    persisted. *)
Lemma marker_left_unset :
  isProcessed Sample.freshPage = false
  /\ fst (DOMExtractor.extractProfileData (Sample.elementOf Sample.plainCell)
            (clock Sample.freshPage)) = Normal None
  /\ isProcessed (snd (processNotification Sample.alwaysFulfils
                         (Sample.elementOf Sample.plainCell) Sample.freshPage))
     = false
  /\ fst (processNotification Sample.alwaysRejects
            (Sample.elementOf Sample.spamCell) Sample.freshPage) = Throw
  /\ isProcessed (snd (processNotification Sample.alwaysRejects
                         (Sample.elementOf Sample.spamCell) Sample.freshPage))
     = false.
Proof. repeat split; vm_compute; reflexivity. Qed.

(** C8: on a notification whose marker is set, [processNotification]
    returns at once: no call is made to the extractor, the analyzer, the
    renderer or the store, and nothing changes. *)
Theorem processed_notification_is_skipped
  (fulfils : Storage) (notification : Element) (page : Page) :
  isProcessed page = true ->
  processNotification fulfils notification page = (Normal tt, page).
Proof.
  unfold isProcessed, processNotification. intros ->. reflexivity.
Qed.

End CoordinatorFacts.

(** ** Feed discovery *)

Section FeedDiscoveryFacts.
Import BotDetector.

(** The wait makes at most [maxRetries - retryCount] retries, each after
    a timer of 1000 ms; it counts them in [retryCount]; it returns what
    the last probe found; and it returns [null] only with the retries
    used up. *)
Lemma waitForNotificationsFeed_bounded (page : nat -> Document) (this : Fields) :
  List.length (timers (waitForNotificationsFeed page this))
    <= maxRetries this - retryCount this
  /\ Forall (eq 1000%Z) (timers (waitForNotificationsFeed page this))
  /\ maxRetries (fields (waitForNotificationsFeed page this)) = maxRetries this
  /\ retryCount (fields (waitForNotificationsFeed page this))
     = retryCount this + List.length (timers (waitForNotificationsFeed page this))
  /\ feed (waitForNotificationsFeed page this)
     = findFeed (page (List.length (timers (waitForNotificationsFeed page this))))
                selectors
  /\ (forall k, k < List.length (timers (waitForNotificationsFeed page this)) ->
                findFeed (page k) selectors = None)
  /\ (feed (waitForNotificationsFeed page this) = None ->
      maxRetries this <= retryCount (fields (waitForNotificationsFeed page this))).
Proof.
  funelim (waitForNotificationsFeed page this).
  - simpl. repeat split; auto; try lia. discriminate.
  - simpl. repeat split; auto; try lia.
  - cbv zeta. simpl.
    destruct H as (Hlen & Hall & Hmax & Hcount & Hfeed & Hnone & Hcap).
    simpl in *. repeat split; auto; try lia.
    intros [| k] Hk; [assumption | apply Hnone; lia].
Qed.

(** With the retries used up, the wait probes once and sets no timer. *)
Lemma waitForNotificationsFeed_exhausted (page : nat -> Document) (this : Fields) :
  maxRetries this <= retryCount this ->
  waitForNotificationsFeed page this
  = {| feed := findFeed (page 0) selectors; fields := this; timers := [] |}.
Proof.
  intros Hcap. funelim (waitForNotificationsFeed page this).
  - congruence.
  - congruence.
  - lia.
Qed.

(** The selector loop returns [HTMLElement]s only. *)
Lemma findFeed_isHTMLElement (document : Document) (sels : list string) (found : Node) :
  findFeed document sels = Some found -> isHTMLElement found = true.
Proof.
  induction sels as [| sel sels IH]; simpl; [discriminate |].
  destruct (document sel) as [first |]; [| exact IH].
  destruct (isHTMLElement first) eqn:Eh; [| exact IH].
  intros E. inversion E; subst. exact Eh.
Qed.

Lemma Forall_eq_repeat {A : Type} (x : A) (l : list A) :
  Forall (eq x) l -> l = repeat x (List.length l).
Proof.
  induction 1 as [| y l Hy _ IH]; simpl; [reflexivity |].
  now rewrite <- Hy, <- IH.
Qed.

(** C9: the wait of a fresh detector ends after at most 10 retries, each
    after a timer of 1000 ms; when it returns [null], all 10 retries were
    made and none of the 11 probes found the feed, the pipeline is not
    started, and a later wait on the same detector sets no timer.
    Conversely, when none of the 11 probes finds a feed the wait returns
    [null] after exactly 10 timers; what it returns is always what its
    last probe found, an [HTMLElement] or [null]; and a detector whose
    retries are used up probes once, returns what that probe finds,
    [null] if nothing, and sets no timer. *)
Theorem feed_discovery_is_bounded (page : nat -> Document) :
  List.length (timers (waitForNotificationsFeed page initial)) <= 10
  /\ Forall (eq 1000%Z) (timers (waitForNotificationsFeed page initial))
  /\ (feed (waitForNotificationsFeed page initial) = None ->
      List.length (timers (waitForNotificationsFeed page initial)) = 10
      /\ retryCount (fields (waitForNotificationsFeed page initial)) = 10
      /\ (forall k, k <= 10 -> findFeed (page k) selectors = None)
      /\ fst (init page initial) = NotStarted
      /\ (forall later : nat -> Document,
            timers (waitForNotificationsFeed later
                      (fields (waitForNotificationsFeed page initial))) = []
            /\ fields (waitForNotificationsFeed later
                         (fields (waitForNotificationsFeed page initial)))
               = fields (waitForNotificationsFeed page initial)))
  /\ ((forall k, k <= 10 -> findFeed (page k) selectors = None) ->
      waitForNotificationsFeed page initial
      = {| feed := None;
           fields := {| retryCount := 10; maxRetries := 10 |};
           timers := repeat 1000%Z 10 |})
  /\ feed (waitForNotificationsFeed page initial)
     = findFeed (page (List.length (timers (waitForNotificationsFeed page initial))))
                selectors
  /\ (forall found : Node,
        feed (waitForNotificationsFeed page initial) = Some found ->
        isHTMLElement found = true)
  /\ (forall (later : nat -> Document) (this : Fields),
        maxRetries this <= retryCount this ->
        waitForNotificationsFeed later this
        = {| feed := findFeed (later 0) selectors; fields := this; timers := [] |}).
Proof.
  destruct (waitForNotificationsFeed_bounded page initial)
    as (Hlen & Hall & Hmax & Hcount & Hfeed & Hnone & Hcap).
  change (maxRetries initial) with 10 in *. change (retryCount initial) with 0 in *.
  split; [lia |]. split; [assumption |].
  split; [| split; [| split; [| split]]].
  - intros Hnull. specialize (Hcap Hnull).
    assert (Hten : List.length (timers (waitForNotificationsFeed page initial)) = 10)
      by lia.
    split; [assumption |]. split; [lia |]. split; [| split].
    + intros k Hk. destruct (Nat.eq_dec k 10) as [-> | Hne].
      * rewrite <- Hten, <- Hfeed. assumption.
      * apply Hnone. lia.
    + unfold init. cbv zeta. rewrite Hnull. reflexivity.
    + intros later.
      rewrite (waitForNotificationsFeed_exhausted later
                 (fields (waitForNotificationsFeed page initial))) by lia.
      auto.
  - intros Hnever.
    assert (Hbound : List.length (timers (waitForNotificationsFeed page initial)) <= 10)
      by lia.
    assert (Hnull : feed (waitForNotificationsFeed page initial) = None)
      by (rewrite Hfeed; apply Hnever; exact Hbound).
    specialize (Hcap Hnull).
    assert (Hten : List.length (timers (waitForNotificationsFeed page initial)) = 10)
      by lia.
    apply Forall_eq_repeat in Hall. rewrite Hten in Hall.
    destruct (waitForNotificationsFeed page initial) as [f [r m] t].
    cbn [feed fields timers retryCount maxRetries] in *.
    replace r with 10 by lia.
    rewrite Hnull, Hmax, Hall. reflexivity.
  - exact Hfeed.
  - intros found Hfound. rewrite Hfeed in Hfound.
    exact (findFeed_isHTMLElement _ _ _ Hfound).
  - intros later this Hcap'. now apply waitForNotificationsFeed_exhausted.
Qed.

End FeedDiscoveryFacts.

(** ** The theorems at sample inputs *)

Section Witnesses.
Import RegExp DOM Spec.

Lemma community_exemption_witness :
  test (ProfileAnalyzer.community ProfileAnalyzer.PATTERNS)
       (username Sample.communityProfile) = true
  /\ test (ProfileAnalyzer.manyNumbers ProfileAnalyzer.PATTERNS)
          (JS.toLowerCase (username Sample.communityProfile)) = true
  /\ ProfileAnalyzer.analyzeBotProbability Sample.communityProfile
     = {| probability := zero; reasons := [] |}.
Proof.
  split; [vm_compute; reflexivity |].
  split; [vm_compute; reflexivity |].
  apply (community_exemption Sample.communityProfile).
  vm_compute; reflexivity.
Defined.

Lemma sample_queries_do_not_throw (usernames : list string) (selector : string) :
  Sample.avatars usernames selector <> Throw.
Proof.
  unfold Sample.avatars.
  destruct (find (fun u => String.eqb selector (DOMExtractor.avatarSelector u)) usernames);
    discriminate.
Defined.

Lemma parseNotification_one_record_per_link_witness :
  querySelector MoreSamples.pickyCell "" = Throw
  /\ structuralKind (loweredText MoreSamples.pickyCell) = None
  /\ test (DOMExtractor.MULTI_USER DOMExtractor.PATTERNS)
          (loweredText MoreSamples.pickyCell) = true
  /\ test (DOMExtractor.LIKE DOMExtractor.PATTERNS)
          (loweredText MoreSamples.pickyCell) = true
  /\ map linkUsername (resolvableLinks MoreSamples.pickyCell) = ["alice"; "alice"]
  /\ exists (built : list UserProfileData) (clock' : Clock),
       DOMExtractor.parseNotification MoreSamples.pickyCell (Sample.clockAt 0)
       = (Normal (Some {| DOMExtractor.type := MultiUser;
                          DOMExtractor.text := loweredText MoreSamples.pickyCell;
                          DOMExtractor.users := Some built |}),
          clock')
       /\ map username built = ["alice"; "alice"]
       /\ Forall (fun u => interactionType u = Like) built.
Proof.
  split; [reflexivity |].
  split; [vm_compute; reflexivity |].
  split; [vm_compute; reflexivity |].
  split; [vm_compute; reflexivity |].
  split; [vm_compute; reflexivity |].
  destruct (parseNotification_one_record_per_link
              MoreSamples.pickyCell (Sample.clockAt 0))
    as (built & clock' & Hparse & Hnames & _ & Hlikes & _).
  - vm_compute; reflexivity.
  - change (userLinks MoreSamples.pickyCell)
      with [Sample.linkTo "alice"; Sample.linkTo "alice"].
    repeat constructor; intros _; vm_compute; discriminate.
  - destruct Hlikes as (Hkind & Hlen & Hall); try (vm_compute; reflexivity).
    exists built, clock'. rewrite Hkind in Hparse.
    destruct built as [| u us]; [discriminate Hlen |].
    split; [exact Hparse |]. split; [exact Hnames | exact Hall].
Defined.

Lemma structural_kind_short_circuits_witness :
  structuralKind (loweredText Sample.trendingPinnedCell) = Some PinnedPost
  /\ test (DOMExtractor.TRENDING DOMExtractor.PATTERNS)
          (loweredText Sample.trendingPinnedCell) = true
  /\ List.length (resolvableLinks Sample.trendingPinnedCell) = 2
  /\ DOMExtractor.parseNotification Sample.trendingPinnedCell (Sample.clockAt 0)
     = (Normal (Some {| DOMExtractor.type := PinnedPost;
                        DOMExtractor.text := loweredText Sample.trendingPinnedCell;
                        DOMExtractor.users := None |}),
        Sample.clockAt 0)
  /\ DOMExtractor.extractProfileData (Sample.elementOf Sample.trendingPinnedCell)
                                     (Sample.clockAt 0)
     = (Normal None, Sample.clockAt 0).
Proof.
  split; [vm_compute; reflexivity |].
  split; [vm_compute; reflexivity |].
  split; [vm_compute; reflexivity |].
  destruct (structural_kind_short_circuits
              Sample.trendingPinnedCell (Sample.clockAt 0) PinnedPost)
    as (Hparse & Hextract & _).
  - vm_compute; reflexivity.
  - split; [exact Hparse |]. apply Hextract. reflexivity.
Defined.

Lemma marker_set_exactly_when_handled_witness :
  isProcessed Sample.freshPage = false
  /\ isProcessed (snd (BotDetector.processNotification Sample.alwaysFulfils
                         (Sample.elementOf Sample.spamCell) Sample.freshPage))
     = true
  /\ isProcessed (snd (BotDetector.processNotification Sample.alwaysFulfils
                         (Sample.elementOf Sample.multiUserCell) Sample.freshPage))
     = true.
Proof.
  split; [reflexivity |]. split.
  - rewrite (proj1 (marker_set_exactly_when_handled Sample.alwaysFulfils
                      (Sample.elementOf Sample.spamCell) Sample.freshPage eq_refl)).
    vm_compute; reflexivity.
  - rewrite (proj1 (marker_set_exactly_when_handled Sample.alwaysFulfils
                      (Sample.elementOf Sample.multiUserCell) Sample.freshPage eq_refl)).
    vm_compute; reflexivity.
Defined.

Lemma processed_notification_is_skipped_witness :
  isProcessed Sample.processedPage = true
  /\ BotDetector.processNotification Sample.alwaysFulfils
       (Sample.elementOf Sample.spamCell) Sample.processedPage
     = (Normal tt, Sample.processedPage).
Proof.
  split; [reflexivity |].
  apply (processed_notification_is_skipped Sample.alwaysFulfils
           (Sample.elementOf Sample.spamCell) Sample.processedPage).
  reflexivity.
Defined.

Lemma feed_discovery_is_bounded_witness :
  BotDetector.feed (BotDetector.waitForNotificationsFeed
                      (fun _ => Sample.emptyDocument) BotDetector.initial) = None
  /\ List.length (BotDetector.timers
                    (BotDetector.waitForNotificationsFeed
                       (fun _ => Sample.emptyDocument) BotDetector.initial)) = 10
  /\ BotDetector.timers
       (BotDetector.waitForNotificationsFeed Sample.lateDocument
          (BotDetector.fields
             (BotDetector.waitForNotificationsFeed
                (fun _ => Sample.emptyDocument) BotDetector.initial))) = []
  /\ (forall k, k <= 10 ->
                BotDetector.findFeed MoreSamples.foreignDocument BotDetector.selectors
                = None)
  /\ BotDetector.waitForNotificationsFeed
       (fun _ => MoreSamples.foreignDocument) BotDetector.initial
     = {| BotDetector.feed := None;
          BotDetector.fields := {| BotDetector.retryCount := 10;
                                   BotDetector.maxRetries := 10 |};
          BotDetector.timers := repeat 1000%Z 10 |}.
Proof.
  split; [vm_compute; reflexivity |].
  destruct (feed_discovery_is_bounded (fun _ => Sample.emptyDocument))
    as (_ & _ & Hnull & _).
  destruct Hnull as (Hten & _ & _ & _ & Hlater); [vm_compute; reflexivity |].
  split; [exact Hten |].
  split; [exact (proj1 (Hlater Sample.lateDocument)) |].
  assert (Hforeign : forall k, k <= 10 ->
            BotDetector.findFeed MoreSamples.foreignDocument BotDetector.selectors
            = None) by (intros k _; reflexivity).
  split; [exact Hforeign |].
  destruct (feed_discovery_is_bounded (fun _ => MoreSamples.foreignDocument))
    as (_ & _ & _ & Hnever & _).
  exact (Hnever Hforeign).
Defined.

End Witnesses.

(* ===================================================================== *)
(** * Part III: further properties of the code *)
(* ===================================================================== *)

(** ** Scoring: how the heuristics combine *)

Section ScoringCombination.
Import RegExp ProfileAnalyzer Notions.
Context {K : Type}.

(** Splits on the outcome of every scoring condition of [profile]. *)
Ltac split_conditions profile :=
  unfold noFollowersCondition;
  destruct (strictEq (followersCount profile) zero
            && strictEq (followingCount profile) zero);
  destruct (test (randomAlphanumeric PATTERNS) (JS.toLowerCase (username profile)));
  destruct (test (manyNumbers PATTERNS) (JS.toLowerCase (username profile)));
  destruct (test (botKeywords PATTERNS) (JS.toLowerCase (username profile)));
  destruct (test (randomSuffix PATTERNS) (JS.toLowerCase (username profile)));
  destruct (test (numericSuffix PATTERNS) (JS.toLowerCase (username profile)));
  destruct (test (randomLetters PATTERNS) (JS.toLowerCase (username profile))).

(** A run of four digits at the end is a run of four digits. *)
Lemma numericSuffix_manyNumbers (s : string) :
  test (numericSuffix PATTERNS) s = true -> test (manyNumbers PATTERNS) s = true.
Proof.
  rewrite !test_spec.
  intros (pre & m & post & E & H & _ & _).
  exists pre, m, post. repeat split; try assumption; discriminate.
Qed.

(** Letters and then four digits at the end end with four digits. *)
Lemma randomSuffix_numericSuffix (s : string) :
  test (randomSuffix PATTERNS) s = true -> test (numericSuffix PATTERNS) s = true.
Proof.
  rewrite !test_spec.
  intros (pre & m & post & E & H & _ & Hend).
  change (body (randomSuffix PATTERNS))
    with (Cat (plus lower) (atLeast 4 digit)) in H.
  apply Matches_Cat_inv in H as (s1 & s2 & -> & _ & H2).
  exists (pre ++ s1), s2, post. repeat split.
  - rewrite E, !append_assoc. reflexivity.
  - exact H2.
  - discriminate.
  - exact Hend.
Qed.


(** Splits on the conditions of [profile], keeping what the stacking of
    the suffix patterns rules out. *)
Ltac case_feasible_conditions profile :=
  generalize (randomSuffix_numericSuffix (JS.toLowerCase (username profile)));
  generalize (numericSuffix_manyNumbers (JS.toLowerCase (username profile)));
  generalize (randomLetters_test_lowered (username profile));
  split_conditions profile;
  intros Hletters Hmany Hsuffix;
  try discriminate Hletters;
  try discriminate (Hmany eq_refl);
  try discriminate (Hsuffix eq_refl);
  clear Hletters Hmany Hsuffix.

(** X2: a profile has no reasons exactly when its probability is 0. *)
Theorem no_reasons_iff_zero_probability (profile : ProfileOf K) :
  reasons (analyzeBotProbability profile) = []
  <-> probability (analyzeBotProbability profile) = zero.
Proof.
  unfold analyzeBotProbability, calculateBotProbability. cbv zeta.
  destruct (test (community PATTERNS) (username profile)); [simpl; tauto |].
  split_conditions profile; vm_compute; split; intros H; (reflexivity || discriminate H).
Qed.

(** The flag in terms of the conditions that can hold together. *)
Lemma flagged_by_conditions (profile : ProfileOf K) :
  flagged profile
  = negb (exempt profile)
    && (if noFollowersCondition profile
        then heuristic (randomAlphanumeric PATTERNS) profile
             || heuristic (botKeywords PATTERNS) profile
             || heuristic (numericSuffix PATTERNS) profile
        else (heuristic (randomAlphanumeric PATTERNS) profile
              && heuristic (botKeywords PATTERNS) profile)
             || ((heuristic (randomAlphanumeric PATTERNS) profile
                  || heuristic (botKeywords PATTERNS) profile)
                 && heuristic (numericSuffix PATTERNS) profile)
             || heuristic (randomSuffix PATTERNS) profile).
Proof.
  unfold flagged, exempt, heuristic, analyzeBotProbability, calculateBotProbability.
  cbv zeta.
  destruct (test (community PATTERNS) (username profile)); [reflexivity |].
  case_feasible_conditions profile; vm_compute; reflexivity.
Qed.

(** X3: which profiles are flagged.  Without followers and following, a
    profile is flagged exactly when its lower-cased username is random
    alphanumeric, has a bot keyword or ends with four digits; otherwise
    exactly when two of these hold or it has the random suffix.  An
    exempt profile is never flagged. *)
Theorem flagged_characterisation (profile : ProfileOf K) :
  flagged profile
  = negb (exempt profile)
    && (if noFollowersCondition profile
        then heuristic (randomAlphanumeric PATTERNS) profile
             || heuristic (botKeywords PATTERNS) profile
             || heuristic (numericSuffix PATTERNS) profile
        else (heuristic (randomAlphanumeric PATTERNS) profile
              && heuristic (botKeywords PATTERNS) profile)
             || ((heuristic (randomAlphanumeric PATTERNS) profile
                  || heuristic (botKeywords PATTERNS) profile)
                 && heuristic (numericSuffix PATTERNS) profile)
             || heuristic (randomSuffix PATTERNS) profile).
Proof. exact (flagged_by_conditions profile). Qed.

(** X4: the reasons are distinct and at most six. *)
Theorem reasons_distinct_at_most_six (profile : ProfileOf K) :
  NoDup (reasons (analyzeBotProbability profile))
  /\ List.length (reasons (analyzeBotProbability profile)) <= 6.
Proof.
  unfold analyzeBotProbability. cbv zeta.
  destruct (test (community PATTERNS) (username profile));
    [split; [constructor | simpl; lia] |].
  rewrite (randomLetters_test_lowered (username profile)).
  split_conditions profile; cbn [reasons JS.push app List.length];
    (split; [| lia]);
    repeat (constructor; [cbn [In]; intuition discriminate |]); constructor.
Qed.

(** X5: the score does not look at the case of the username. *)
Theorem scoring_ignores_case (profile : ProfileOf K) :
  calculateBotProbability (withUsername (JS.toLowerCase (username profile)) profile)
  = calculateBotProbability profile.
Proof.
  unfold calculateBotProbability, withUsername. cbv zeta.
  cbn [username followersCount followingCount].
  rewrite toLowerCase_idempotent. reflexivity.
Qed.

(** X6: followers never raise the score: a profile with followers or
    following scores at most what the same username scores without. *)
Theorem followers_never_raise_the_score (p q : ProfileOf K) :
  username p = username q ->
  noFollowersCondition q = true ->
  lessEq (calculateBotProbability p) (calculateBotProbability q) = true.
Proof.
  unfold noFollowersCondition, calculateBotProbability. cbv zeta.
  intros -> ->.
  destruct (strictEq (followersCount p) zero && strictEq (followingCount p) zero);
    destruct (test (randomAlphanumeric PATTERNS) (JS.toLowerCase (username q)));
    destruct (test (manyNumbers PATTERNS) (JS.toLowerCase (username q)));
    destruct (test (botKeywords PATTERNS) (JS.toLowerCase (username q)));
    destruct (test (randomSuffix PATTERNS) (JS.toLowerCase (username q)));
    destruct (test (numericSuffix PATTERNS) (JS.toLowerCase (username q)));
    destruct (test (randomLetters PATTERNS) (JS.toLowerCase (username q)));
    vm_compute; reflexivity.
Qed.

End ScoringCombination.

(** ** The kind patterns search for their phrase, ignoring case *)

Section PhraseFacts.
Import RegExp DOMExtractor Notions.

Lemma prefix_spec (p s : string) :
  String.prefix p s = true <-> exists post, s = p ++ post.
Proof.
  revert s. induction p as [| a p IH]; intros s.
  - split; [intros _; now exists s | intros _; destruct s; reflexivity].
  - destruct s as [| b s]; simpl.
    + split; [discriminate | intros (post & E); discriminate E].
    + destruct (ascii_dec a b) as [-> | Hne].
      * rewrite IH. split; intros (post & E); exists post.
        -- now rewrite E.
        -- now inversion E.
      * split; [discriminate | intros (post & E); inversion E; congruence].
Qed.

Lemma includes_spec (s needle : string) :
  JS.includes s needle = true <-> exists pre post, s = pre ++ needle ++ post.
Proof.
  induction s as [| c s IH].
  - change (JS.includes "" needle) with (String.prefix needle "" || false).
    rewrite orb_false_r, prefix_spec. split.
    + intros (post & E). now exists "", post.
    + intros (pre & post & E). symmetry in E.
      apply append_eq_empty in E as [-> E]. now exists post.
  - change (JS.includes (String c s) needle)
      with (String.prefix needle (String c s) || JS.includes s needle).
    rewrite orb_true_iff, prefix_spec, IH. split.
    + intros [(post & E) | (pre & post & ->)].
      * now exists "", post.
      * now exists (String c pre), post.
    + intros ([| c' pre] & post & E); simpl in E.
      * left. now exists post.
      * right. inversion E. now exists pre, post.
Qed.

Lemma toLowerCase_append (a b : string) :
  JS.toLowerCase (a ++ b) = JS.toLowerCase a ++ JS.toLowerCase b.
Proof. induction a as [| c a IH]; simpl; [reflexivity | now rewrite IH]. Qed.

Lemma toLowerCase_split (s a b : string) :
  JS.toLowerCase s = a ++ b ->
  exists s1 s2, s = s1 ++ s2 /\ JS.toLowerCase s1 = a /\ JS.toLowerCase s2 = b.
Proof.
  revert s. induction a as [| c a IH]; intros s E; simpl in E.
  - now exists "", s.
  - destruct s as [| c' s]; [discriminate |]. simpl in E. inversion E; subst.
    destruct (IH s H1) as (s1 & s2 & -> & <- & <-).
    now exists (String c' s1), s2.
Qed.

Lemma allUnits_complete (c : ascii) : In c allUnits.
Proof.
  unfold allUnits. rewrite <- (ascii_nat_embedding c).
  apply in_map, in_seq. pose proof (nat_ascii_bounded c). lia.
Qed.

Lemma agreesOn_all (c c' : ascii) : agreesOn c c' = true.
Proof.
  assert (H : forallb (fun a => forallb (agreesOn a) allUnits) allUnits = true)
    by (vm_compute; reflexivity).
  rewrite forallb_forall in H. specialize (H c (allUnits_complete c)).
  rewrite forallb_forall in H. exact (H c' (allUnits_complete c')).
Qed.

(** A phrase character matches one unit, one whose lower-case form it is. *)
Lemma Matches_chr_i (c : ascii) (m : string) :
  plain c = true ->
  Matches (chr_i c) m <-> exists c', m = String c' "" /\ JS.lowerUnit c' = c.
Proof.
  intros Hp.
  assert (Hone : forall c', Matches (chr_i c) (String c' "") <-> JS.lowerUnit c' = c).
  { intros c'. rewrite <- deriv_Matches, <- nullable_Matches.
    pose proof (agreesOn_all c c') as Ha. unfold agreesOn in Ha.
    rewrite Hp in Ha. simpl in Ha. apply Bool.eqb_prop in Ha. rewrite Ha.
    apply Ascii.eqb_eq. }
  split.
  - intros H. assert (Hc : exists c', m = String c' "").
    { unfold chr_i, chr in H.
      destruct (JS.inRange 97 122 c); [| destruct (JS.inRange 65 90 c)];
        apply Matches_Cls_inv in H as (c' & -> & _); now exists c'. }
    destruct Hc as (c' & ->). exists c'. split; [reflexivity | now apply Hone].
  - intros (c' & -> & E). now apply Hone.
Qed.

(** A phrase matches the texts whose lower-case form it is. *)
Lemma Matches_lit_i (l m : string) :
  allPlain l = true -> Matches (lit_i l) m <-> JS.toLowerCase m = l.
Proof.
  revert m. induction l as [| c l IH]; intros m Hl.
  - simpl. split.
    + intros H. apply Matches_Eps_inv in H. now subst.
    + destruct m; [constructor | discriminate].
  - simpl in Hl. apply andb_prop in Hl as [Hc Hl].
    assert (Hhead : forall w, Matches (chr_i c) w <-> JS.toLowerCase w = String c "").
    { intros w. rewrite (Matches_chr_i c w Hc). split.
      - intros (c' & -> & <-). reflexivity.
      - destruct w as [| c' [| ? ?]]; try discriminate.
        simpl. intros E. inversion E. now exists c'. }
    destruct l as [| c2 l].
    + simpl. apply Hhead.
    + change (lit_i (String c (String c2 l)))
        with (Cat (chr_i c) (lit_i (String c2 l))).
      split.
      * intros H. apply Matches_Cat_inv in H as (s1 & s2 & -> & H1 & H2).
        apply Hhead in H1. apply (IH s2 Hl) in H2.
        rewrite toLowerCase_append, H1, H2. reflexivity.
      * intros E.
        change (String c (String c2 l)) with (String c "" ++ String c2 l) in E.
        apply toLowerCase_split in E as (s1 & s2 & -> & E1 & E2).
        constructor; [now apply Hhead | now apply IH].
Qed.

(** Testing a phrase under the [i] flag is looking for it in the
    lower-cased text. *)
Lemma phrase_test (l s : string) :
  allPlain l = true -> test (phrase l) s = JS.includes (JS.toLowerCase s) l.
Proof.
  intros Hl. apply Bool.eq_iff_eq_true.
  rewrite test_spec, includes_spec. unfold phrase. cbn [body fromStart toEnd].
  split.
  - intros (pre & m & post & -> & H & _).
    apply (Matches_lit_i l m Hl) in H.
    exists (JS.toLowerCase pre), (JS.toLowerCase post).
    rewrite !toLowerCase_append, H. reflexivity.
  - intros (pre & post & E).
    apply toLowerCase_split in E as (s1 & s' & -> & _ & E).
    apply toLowerCase_split in E as (s2 & s3 & -> & E & _).
    exists s1, s2, s3. repeat split; try discriminate.
    now apply Matches_lit_i.
Qed.

(** X7: on a lower-cased text, which is what [parseNotification] tests
    them on, each pattern of the extractor holds exactly when the text
    includes its phrase; hence the interaction type of a lower-cased text
    is Like when it includes liked, else Reply when it includes replied,
    else Repost when it includes reposted, else Follow. *)
Theorem kind_patterns_search_phrases (t : string) :
  test (PINNED_POST PATTERNS) (JS.toLowerCase t)
  = JS.includes (JS.toLowerCase t) "new pinned post in"
  /\ test (TRENDING PATTERNS) (JS.toLowerCase t)
     = JS.includes (JS.toLowerCase t) "trending in"
  /\ test (COMMUNITY_POST PATTERNS) (JS.toLowerCase t)
     = JS.includes (JS.toLowerCase t) "new community post in"
  /\ test (MULTI_USER PATTERNS) (JS.toLowerCase t)
     = JS.includes (JS.toLowerCase t) "new post notifications for"
  /\ test (LIKE PATTERNS) (JS.toLowerCase t)
     = JS.includes (JS.toLowerCase t) "liked"
  /\ test (REPLY PATTERNS) (JS.toLowerCase t)
     = JS.includes (JS.toLowerCase t) "replied"
  /\ test (REPOST PATTERNS) (JS.toLowerCase t)
     = JS.includes (JS.toLowerCase t) "reposted"
  /\ test (FOLLOW PATTERNS) (JS.toLowerCase t)
     = JS.includes (JS.toLowerCase t) "followed"
  /\ determineInteractionType (JS.toLowerCase t)
     = if JS.includes (JS.toLowerCase t) "liked" then Like
       else if JS.includes (JS.toLowerCase t) "replied" then Reply
       else if JS.includes (JS.toLowerCase t) "reposted" then Repost
       else Follow.
Proof.
  unfold determineInteractionType.
  change (PINNED_POST PATTERNS) with (phrase "new pinned post in").
  change (TRENDING PATTERNS) with (phrase "trending in").
  change (COMMUNITY_POST PATTERNS) with (phrase "new community post in").
  change (MULTI_USER PATTERNS) with (phrase "new post notifications for").
  change (LIKE PATTERNS) with (phrase "liked").
  change (REPLY PATTERNS) with (phrase "replied").
  change (REPOST PATTERNS) with (phrase "reposted").
  change (FOLLOW PATTERNS) with (phrase "followed").
  rewrite !phrase_test by reflexivity.
  rewrite !toLowerCase_idempotent.
  repeat split; reflexivity.
Qed.

End PhraseFacts.

(** ** Extraction: what every record satisfies *)

Section ExtractionInvariants.
Import RegExp DOM DOMExtractor Notions.

Lemma truthy_spec (s : string) : JS.truthy s = true <-> s <> "".
Proof. destruct s; simpl; split; congruence. Qed.

(** What a successful call of the mapped function tells: without a
    record the clock is untouched; with one it was read once, for the
    timestamp, and the record is made of the link and the text. *)
Lemma buildUser_inv (cell : Cell) (text : string) (link : Anchor)
  (clock clock' : Clock) (r : option UserProfileData) :
  buildUser cell text link clock = (Normal r, clock') ->
  match r with
  | None => clock' = clock
  | Some u =>
      clock' = tick clock
      /\ interactionTimestamp u = readings clock (reads clock)
      /\ (exists h, href link = Some h /\ username u = JS.slice1 h)
      /\ username u <> ""
      /\ displayName u <> ""
      /\ profileImageUrl u <> ""
      /\ followersCount u = zero
      /\ followingCount u = zero
      /\ interactionType u = determineInteractionType text
      /\ notificationType u
         = (if test (MULTI_USER PATTERNS) text then multi_user else user_interaction)
  end.
Proof.
  unfold buildUser.
  destruct (href link) as [h |]; simpl;
    [| intros E; inversion E; reflexivity].
  destruct (JS.truthy (JS.slice1 h)) eqn:Eu; simpl;
    [| intros E; inversion E; reflexivity].
  unfold bind, lift.
  destruct (querySelector cell (avatarSelector (JS.slice1 h))) as [[container |] |];
    [| intros E; inversion E; reflexivity | intros E; discriminate E].
  destruct (extractProfileImage container) as [url |];
    [| intros E; inversion E; reflexivity].
  destruct (JS.truthy url) eqn:Ei; simpl;
    [| intros E; inversion E; reflexivity].
  unfold Date_now, ret. intros E. inversion E; subst. simpl.
  apply truthy_spec in Eu. apply truthy_spec in Ei.
  repeat split; auto.
  - now exists h.
  - destruct (anchorText link) as [t |]; simpl; [| assumption].
    destruct (JS.truthy (JS.trim t)) eqn:Et; [now apply truthy_spec | assumption].
Qed.

(** The records built over the links: each comes from one of the links,
    and their timestamps are the successive readings of the clock. *)
Lemma mapM_buildUser_inv (cell : Cell) (text : string) (links : list Anchor)
  (clock clock' : Clock) (rs : list (option UserProfileData)) :
  mapM (buildUser cell text) links clock = (Normal rs, clock') ->
  readings clock' = readings clock
  /\ reads clock' = reads clock + List.length (nonNull rs)
  /\ map interactionTimestamp (nonNull rs)
     = map (readings clock) (seq (reads clock) (List.length (nonNull rs)))
  /\ Forall (fun u => exists link c c',
                        In link links
                        /\ buildUser cell text link c = (Normal (Some u), c'))
            (nonNull rs).
Proof.
  revert clock clock' rs. induction links as [| link links IH]; intros clock clock' rs.
  - simpl. unfold ret. intros E. inversion E; subst. simpl.
    repeat split; auto.
  - simpl. unfold bind at 1.
    destruct (buildUser cell text link clock) as [[r |] c1] eqn:Eb;
      [| intros E; discriminate E].
    unfold bind at 1.
    destruct (mapM (buildUser cell text) links c1) as [[ys |] c2] eqn:Em;
      [| intros E; discriminate E].
    unfold ret. intros E. inversion E; subst.
    destruct (IH _ _ _ Em) as (Hr & Hn & Ht & Hf).
    assert (Hf' : Forall (fun u => exists link0 c c',
                            In link0 (link :: links)
                            /\ buildUser cell text link0 c = (Normal (Some u), c'))
                         (nonNull ys)).
    { eapply Forall_impl; [| exact Hf].
      intros u (l & c & c' & Hin & Hb). exists l, c, c'. split; [now right | exact Hb]. }
    pose proof (buildUser_inv _ _ _ _ _ _ Eb) as Hinv.
    destruct r as [u |].
    + destruct Hinv as (-> & Hts & _). unfold tick in *. simpl in *.
      rewrite Hr, Hn, Ht, Hts.
      repeat split; auto; try lia.
      constructor; [| exact Hf'].
      exists link, clock, {| readings := readings clock; reads := S (reads clock) |}.
      split; [now left | exact Eb].
    + subst c1. simpl. auto.
Qed.

(** A user link has a path that starts with a slash and has no [/i/]. *)
Lemma isUserLink_href (link : Anchor) :
  isUserLink link = true ->
  exists rest, href link = Some (String "/" rest)
               /\ JS.includes (String "/" rest) "/i/" = false.
Proof.
  unfold isUserLink. destruct (href link) as [h |]; [| discriminate].
  intros H. apply andb_prop in H as [Hs Hi].
  unfold JS.startsWith in Hs. apply prefix_spec in Hs as (rest & ->).
  exists rest. split; [reflexivity |]. now apply negb_true_iff in Hi.
Qed.

(** What [parseNotification] returns, whenever it returns: the records
    are well formed, and there is at least one when there is a user kind. *)
Lemma parseNotification_inv (cell : Cell) (clock clock' : Clock)
  (r : option NotificationData) :
  parseNotification cell clock = (Normal r, clock') ->
  Forall (wellFormedRecord cell) (recordsOf r)
  /\ readings clock' = readings clock
  /\ reads clock' = reads clock + List.length (recordsOf r)
  /\ map interactionTimestamp (recordsOf r)
     = map (readings clock) (seq (reads clock) (List.length (recordsOf r)))
  /\ match r with
     | None => structuralKind (loweredText cell) = None
     | Some nd =>
         text nd = loweredText cell
         /\ match users nd with
            | None => structuralKind (loweredText cell) = Some (type nd)
            | Some us =>
                us <> [] /\ structuralKind (loweredText cell) = None
                /\ type nd = userKind (loweredText cell)
            end
     end.
Proof.
  unfold parseNotification, structuralKind. fold (loweredText cell). cbv zeta.
  destruct (test (PINNED_POST PATTERNS) (loweredText cell));
    [unfold ret; intros E; inversion E; subst; simpl;
     repeat split; auto; lia |].
  destruct (test (TRENDING PATTERNS) (loweredText cell));
    [unfold ret; intros E; inversion E; subst; simpl;
     repeat split; auto; lia |].
  destruct (test (COMMUNITY_POST PATTERNS) (loweredText cell));
    [unfold ret; intros E; inversion E; subst; simpl;
     repeat split; auto; lia |].
  destruct (isEmpty (filter isUserLink (roleLinks cell)));
    [unfold ret; intros E; inversion E; subst; simpl;
     repeat split; auto; lia |].
  unfold bind.
  destruct (mapM (buildUser cell (loweredText cell))
                 (filter isUserLink (roleLinks cell)) clock)
    as [[rs |] c1] eqn:Em; [| intros E; discriminate E].
  destruct (mapM_buildUser_inv _ _ _ _ _ _ Em) as (Hr & Hn & Ht & Hf).
  destruct (isEmpty (nonNull rs)) eqn:Ee; unfold ret; intros E; inversion E; subst.
  - apply isEmpty_nil in Ee. rewrite Ee in *. simpl in *.
    repeat split; auto.
  - simpl. repeat split; auto.
    + eapply Forall_impl; [| exact Hf].
      intros u (link & c & c' & Hin & Hb).
      apply filter_In in Hin as [Hin Hlink].
      apply buildUser_inv in Hb
        as (_ & _ & (h & Hh & Hu) & Hne & Hd & Hi & Hf1 & Hf2 & Hty & Hk).
      apply isUserLink_href in Hlink as (rest & Hrest & Hno).
      rewrite Hrest in Hh. inversion Hh; subst h. simpl in Hu. subst rest.
      unfold wellFormedRecord. repeat split; auto.
      exists link. auto.
    + intros Hnil. rewrite Hnil in Ee. discriminate Ee.
Qed.

(** X8: every record [parseNotification] returns is well formed: names
    and image address not empty, counts 0, interaction type and
    discriminator read from the text of the cell, username taken from a
    link of the cell whose path has no [/i/]; a result with records has
    at least one and is of the user kind of the text. *)
Theorem parsed_records_are_well_formed (cell : Cell) (clock clock' : Clock)
  (nd : NotificationData) (us : list UserProfileData) :
  parseNotification cell clock = (Normal (Some nd), clock') ->
  users nd = Some us ->
  us <> []
  /\ Forall (wellFormedRecord cell) us
  /\ type nd = userKind (loweredText cell)
  /\ text nd = loweredText cell
  /\ structuralKind (loweredText cell) = None.
Proof.
  intros E Hu. apply parseNotification_inv in E as (Hf & _ & _ & _ & Ht & Hk).
  simpl in Hf. rewrite Hu in *. destruct Hk as (Hne & Hs & Hty). auto.
Qed.

(** X9: [parseNotification] reads the clock once per record it returns,
    and the timestamps of the records are these readings in order. *)
Theorem timestamps_are_successive_readings (cell : Cell) (clock clock' : Clock)
  (r : option NotificationData) :
  parseNotification cell clock = (Normal r, clock') ->
  readings clock' = readings clock
  /\ reads clock' = reads clock + List.length (recordsOf r)
  /\ map interactionTimestamp (recordsOf r)
     = map (readings clock) (seq (reads clock) (List.length (recordsOf r))).
Proof.
  intros E. apply parseNotification_inv in E as (_ & Hr & Hn & Ht & _). auto.
Qed.

End ExtractionInvariants.

(** ** Extraction and scoring together *)

Section ExtractedProfiles.
Import RegExp DOM DOMExtractor Notions.

(** What a profile returned by [extractProfileData] comes from. *)
Lemma extractProfileData_inv (element : Element) (clock clock' : Clock)
  (p : ProfileData) :
  extractProfileData element clock = (Normal (Some p), clock') ->
  contains (classList element) "xbd-warning" = false
  /\ exists cell nd u us,
       closestCell element = Some cell
       /\ parseNotification cell clock = (Normal (Some nd), clock')
       /\ users nd = Some (u :: us)
       /\ p = toProfileData u.
Proof.
  unfold extractProfileData, catch, extractProfileData_try.
  destruct (contains (classList element) "xbd-warning");
    [unfold ret; intros E; discriminate E |].
  destruct (closestCell element) as [cell |];
    [| unfold ret; intros E; discriminate E].
  unfold bind.
  destruct (parseNotification cell clock) as [[[nd |] |] c1] eqn:Ep;
    try (unfold ret; intros E; discriminate E).
  destruct (users nd) as [[| u us] |] eqn:Eu;
    try (unfold ret; intros E; discriminate E).
  destruct (isUserType (type nd)); simpl;
    [| unfold ret; intros E; discriminate E].
  unfold ret. intros E. inversion E; subst.
  split; [reflexivity |]. exists cell, nd, u, us. auto.
Qed.

(** A username taken from a path without [/i/] is not a community
    pseudo-account. *)
Lemma no_internal_route_not_exempt (u : string) :
  JS.includes (String "/" u) "/i/" = false ->
  test (ProfileAnalyzer.community ProfileAnalyzer.PATTERNS) u = false.
Proof.
  intros Hno.
  destruct (test (ProfileAnalyzer.community ProfileAnalyzer.PATTERNS) u) eqn:E;
    [| reflexivity].
  apply community_matches_prefix in E as (rest & ->).
  assert (Hin : JS.includes (String "/" ("i/communities/" ++ rest)) "/i/" = true).
  { apply includes_spec. exists "", ("communities/" ++ rest). reflexivity. }
  congruence.
Qed.

(** The record behind a profile that [extractProfileData] returns. *)
Lemma extracted_profile_record (element : Element) (clock clock' : Clock)
  (p : ProfileData) :
  extractProfileData element clock = (Normal (Some p), clock') ->
  exists cell u,
    closestCell element = Some cell
    /\ wellFormedRecord cell u
    /\ p = toProfileData u.
Proof.
  intros E.
  apply extractProfileData_inv in E as (_ & cell & nd & u & us & Hc & Ep & Eu & ->).
  apply parseNotification_inv in Ep as (Hf & _).
  simpl in Hf. rewrite Eu in Hf. inversion Hf as [| ? ? Hu _]; subst.
  exists cell, u. auto.
Qed.

(** X10: a profile that [extractProfileData] returns is never exempt and
    always meets the no-followers condition: its probability is at least
    0.3, its first reason is the no-followers one, and it is flagged
    exactly when its lower-cased username is random alphanumeric, has a
    bot keyword or ends with four digits. *)
Theorem extracted_profile_scoring (element : Element) (clock clock' : Clock)
  (p : ProfileData) :
  extractProfileData element clock = (Normal (Some p), clock') ->
  username p <> ""
  /\ exempt p = false
  /\ noFollowersCondition p = true
  /\ lessEq (decimal 3 10)
            (probability (ProfileAnalyzer.analyzeBotProbability p)) = true
  /\ hd_error (reasons (ProfileAnalyzer.analyzeBotProbability p))
     = Some "No followers or following"
  /\ flagged p
     = heuristic (ProfileAnalyzer.randomAlphanumeric ProfileAnalyzer.PATTERNS) p
       || heuristic (ProfileAnalyzer.botKeywords ProfileAnalyzer.PATTERNS) p
       || heuristic (ProfileAnalyzer.numericSuffix ProfileAnalyzer.PATTERNS) p.
Proof.
  intros E.
  apply extractProfileData_inv in E as (_ & cell & nd & u & us & _ & Ep & Eu & ->).
  apply parseNotification_inv in Ep as (Hf & _).
  simpl in Hf. rewrite Eu in Hf. inversion Hf as [| ? ? Hu _]; subst.
  destruct Hu as (Hname & _ & _ & Hf1 & Hf2 & _ & _ & link & _ & _ & Hno).
  assert (Hex : exempt (toProfileData u) = false)
    by (apply no_internal_route_not_exempt; exact Hno).
  assert (Hnf : noFollowersCondition (toProfileData u) = true).
  { unfold noFollowersCondition, toProfileData. simpl. rewrite Hf1, Hf2. reflexivity. }
  split; [exact Hname |]. split; [exact Hex |]. split; [exact Hnf |].
  split; [| split].
  - unfold exempt in Hex. unfold noFollowersCondition in Hnf.
    unfold ProfileAnalyzer.analyzeBotProbability,
      ProfileAnalyzer.calculateBotProbability. cbv zeta.
    rewrite Hex, Hnf.
    destruct (test (ProfileAnalyzer.randomAlphanumeric ProfileAnalyzer.PATTERNS)
                   (JS.toLowerCase (username (toProfileData u))));
    destruct (test (ProfileAnalyzer.manyNumbers ProfileAnalyzer.PATTERNS)
                   (JS.toLowerCase (username (toProfileData u))));
    destruct (test (ProfileAnalyzer.botKeywords ProfileAnalyzer.PATTERNS)
                   (JS.toLowerCase (username (toProfileData u))));
    destruct (test (ProfileAnalyzer.randomSuffix ProfileAnalyzer.PATTERNS)
                   (JS.toLowerCase (username (toProfileData u))));
    destruct (test (ProfileAnalyzer.numericSuffix ProfileAnalyzer.PATTERNS)
                   (JS.toLowerCase (username (toProfileData u))));
    destruct (test (ProfileAnalyzer.randomLetters ProfileAnalyzer.PATTERNS)
                   (JS.toLowerCase (username (toProfileData u))));
    vm_compute; reflexivity.
  - unfold exempt in Hex. unfold noFollowersCondition in Hnf.
    unfold ProfileAnalyzer.analyzeBotProbability. cbv zeta.
    rewrite Hex, Hnf.
    destruct (test (ProfileAnalyzer.randomAlphanumeric ProfileAnalyzer.PATTERNS)
                   (JS.toLowerCase (username (toProfileData u))));
    destruct (test (ProfileAnalyzer.manyNumbers ProfileAnalyzer.PATTERNS)
                   (JS.toLowerCase (username (toProfileData u))));
    destruct (test (ProfileAnalyzer.botKeywords ProfileAnalyzer.PATTERNS)
                   (JS.toLowerCase (username (toProfileData u))));
    destruct (test (ProfileAnalyzer.randomSuffix ProfileAnalyzer.PATTERNS)
                   (JS.toLowerCase (username (toProfileData u))));
    destruct (test (ProfileAnalyzer.numericSuffix ProfileAnalyzer.PATTERNS)
                   (JS.toLowerCase (username (toProfileData u))));
    destruct (test (ProfileAnalyzer.randomLetters ProfileAnalyzer.PATTERNS)
                   (JS.toLowerCase (username (toProfileData u))));
    reflexivity.
  - rewrite flagged_by_conditions, Hex, Hnf. reflexivity.
Qed.

(** A link whose avatar query throws makes the mapped function throw. *)
Lemma buildUser_throws (cell : Cell) (text : string) (link : Anchor) (clock : Clock) :
  isUserLink link = true ->
  linkUsername link <> "" ->
  querySelector cell (avatarSelector (linkUsername link)) = Throw ->
  buildUser cell text link clock = (Throw, clock).
Proof.
  unfold isUserLink, linkUsername, buildUser.
  destruct (href link) as [h |]; [| discriminate].
  intros _ Hne Hq. simpl.
  apply truthy_spec in Hne. rewrite Hne. simpl.
  unfold bind, lift. rewrite Hq. reflexivity.
Qed.

(** One throwing link makes the whole map throw. *)
Lemma mapM_throws {S A B : Type} (f : A -> Eff S B) (xs : list A) (x : A) :
  In x xs ->
  (forall s, f x s = (Throw, s)) ->
  forall s, fst (mapM f xs s) = Throw.
Proof.
  intros Hin Hx. induction xs as [| y ys IH]; [contradiction |].
  intros s. simpl. unfold bind at 1.
  destruct Hin as [-> | Hin].
  - rewrite Hx. reflexivity.
  - destruct (f y s) as [[b |] s1]; [| reflexivity].
    unfold bind at 1. specialize (IH Hin s1).
    destruct (mapM f ys s1) as [[bs |] s2]; [discriminate IH | reflexivity].
Qed.

(** X11: when the avatar query of one user link throws, as it does on a
    selector that does not parse, [parseNotification] throws, whatever
    the other links resolve to, and [extractProfileData] returns [null]. *)
Theorem throwing_query_yields_null (cell : Cell) (link : Anchor) (clock : Clock) :
  structuralKind (loweredText cell) = None ->
  In link (userLinks cell) ->
  linkUsername link <> "" ->
  querySelector cell (avatarSelector (linkUsername link)) = Throw ->
  fst (parseNotification cell clock) = Throw
  /\ forall element : Element,
       closestCell element = Some cell ->
       fst (extractProfileData element clock) = Normal None.
Proof.
  intros Hs Hin Hne Hq.
  apply structuralKind_None in Hs as (Hp & Ht & Hc).
  assert (Hparse : fst (parseNotification cell clock) = Throw).
  { unfold parseNotification. fold (loweredText cell). cbv zeta.
    rewrite Hp, Ht, Hc. fold (userLinks cell).
    destruct (isEmpty (userLinks cell)) eqn:Ee.
    - apply isEmpty_nil in Ee. rewrite Ee in Hin. contradiction.
    - unfold bind.
      assert (Hm : fst (mapM (buildUser cell (loweredText cell))
                             (userLinks cell) clock) = Throw).
      { apply (mapM_throws _ _ link Hin).
        intros s. apply buildUser_throws; auto.
        unfold userLinks in Hin. now apply filter_In in Hin. }
      destruct (mapM (buildUser cell (loweredText cell)) (userLinks cell) clock)
        as [[rs |] c1]; [discriminate Hm | reflexivity]. }
  split; [exact Hparse |].
  intros element He.
  unfold extractProfileData, catch, extractProfileData_try.
  destruct (contains (classList element) "xbd-warning"); [reflexivity |].
  rewrite He. unfold bind.
  destruct (parseNotification cell clock) as [[r |] c1];
    [discriminate Hparse | reflexivity].
Qed.

End ExtractedProfiles.

(** ** Image addresses *)

Section ImageFacts.
Import RegExp DOM DOMExtractor Notions.

Lemma length_append (a b : string) :
  String.length (a ++ b) = String.length a + String.length b.
Proof. induction a as [| c a IH]; simpl; [reflexivity | now rewrite IH]. Qed.

Lemma substring_skip (a b : string) (n : nat) :
  String.substring (String.length a) n (a ++ b) = String.substring 0 n b.
Proof. induction a as [| c a IH]; simpl; [reflexivity | exact IH]. Qed.

Lemma substring_take (a b : string) :
  String.substring 0 (String.length a) (a ++ b) = a.
Proof.
  induction a as [| c a IH]; simpl.
  - destruct b; reflexivity.
  - now rewrite IH.
Qed.

Lemma inClass_quote (c : ascii) :
  inClass [("'"%char, "'"%char); (JS.dquote, JS.dquote)] c = isQuote c.
Proof. destruct c as [[] [] [] [] [] [] [] []]; reflexivity. Qed.

Lemma inClass_dot (c : ascii) :
  inClass [(ascii_of_N 0, ascii_of_N 9); (ascii_of_N 11, ascii_of_N 12);
           (ascii_of_N 14, ascii_of_N 255)] c = isDot c.
Proof. destruct c as [[] [] [] [] [] [] [] []]; reflexivity. Qed.

Lemma Matches_quote (m : string) :
  Matches quote m <-> exists q, m = String q "" /\ isQuote q = true.
Proof.
  unfold quote. split.
  - intros H. apply Matches_Cls_inv in H as (q & -> & H).
    rewrite inClass_quote in H. now exists q.
  - intros (q & -> & H). constructor. now rewrite inClass_quote.
Qed.

Lemma Matches_Star_dot (m : string) :
  Matches (Star dot) m <-> allDot m = true.
Proof.
  split.
  - intros H. remember (Star dot) as r eqn:Er.
    induction H; try discriminate; [reflexivity |].
    inversion Er; subst r.
    apply Matches_Cls_inv in H as (c & -> & Hc).
    rewrite inClass_dot in Hc. simpl. rewrite Hc. now apply IHMatches2.
  - induction m as [| c m IH]; simpl; intros H; [constructor |].
    apply andb_prop in H as [Hc Hm].
    change (String c m) with (String c "" ++ m).
    constructor; [| now apply IH].
    constructor. now rewrite inClass_dot.
Qed.

Lemma Matches_plus_dot (m : string) :
  Matches (plus dot) m <-> m <> "" /\ allDot m = true.
Proof.
  unfold plus. split.
  - intros H. apply Matches_Cat_inv in H as (s1 & s2 & -> & H1 & H2).
    apply Matches_Cls_inv in H1 as (c & -> & Hc).
    rewrite inClass_dot in Hc. apply Matches_Star_dot in H2.
    simpl. rewrite Hc, H2. split; [discriminate | reflexivity].
  - intros [Hne H]. destruct m as [| c m]; [contradiction |].
    simpl in H. apply andb_prop in H as [Hc Hm].
    change (String c m) with (String c "" ++ m).
    constructor; [| now apply Matches_Star_dot].
    constructor. now rewrite inClass_dot.
Qed.

(** The wrapper expression holds of the wrapped addresses only. *)
Lemma URL_WRAPPER_spec (s : string) :
  test URL_WRAPPER s = true <->
  exists q address q',
    s = wrapUrl q address q'
    /\ isQuote q = true /\ isQuote q' = true
    /\ address <> "" /\ allDot address = true.
Proof.
  rewrite test_spec. unfold URL_WRAPPER. cbn [body fromStart toEnd]. split.
  - intros (pre & m & post & -> & H & Hpre & Hpost).
    rewrite (Hpre eq_refl), (Hpost eq_refl), append_empty_r. simpl.
    apply Matches_Cat_inv in H as (a & m1 & -> & Ha & H).
    apply Matches_lit in Ha. subst a.
    apply Matches_Cat_inv in H as (b & m2 & -> & Hb & H).
    apply Matches_quote in Hb as (q & -> & Hq).
    apply Matches_Cat_inv in H as (address & m3 & -> & Hx & H).
    apply Matches_plus_dot in Hx as [Hne Hdot].
    apply Matches_Cat_inv in H as (d & e & -> & Hd & He).
    apply Matches_quote in Hd as (q' & -> & Hq').
    apply (Matches_lit ")") in He. subst e.
    exists q, address, q'. auto.
  - intros (q & address & q' & -> & Hq & Hq' & Hne & Hdot).
    exists "", (wrapUrl q address q'), "".
    rewrite append_empty_r. repeat split; auto.
    unfold wrapUrl.
    constructor; [now apply Matches_lit |].
    change (String q (address ++ String q' ")"))
      with (String q "" ++ (address ++ String q' ")")).
    constructor; [apply Matches_quote; now exists q |].
    constructor; [now apply Matches_plus_dot |].
    change (String q' ")") with (String q' "" ++ ")").
    constructor; [apply Matches_quote; now exists q' |].
    now apply (Matches_lit ")").
Qed.

Lemma unwrapUrl_wrapped (q q' : ascii) (address : string) :
  isQuote q = true -> isQuote q' = true ->
  address <> "" -> allDot address = true ->
  unwrapUrl (wrapUrl q address q') = address.
Proof.
  intros Hq Hq' Hne Hdot. unfold unwrapUrl.
  assert (Ht : test URL_WRAPPER (wrapUrl q address q') = true).
  { apply URL_WRAPPER_spec. exists q, address, q'. auto. }
  rewrite Ht. unfold wrapUrl.
  change ("url(" ++ String q (address ++ String q' ")"))
    with (String "u" (String "r" (String "l" (String "(" (String q ""))))
          ++ (address ++ String q' ")")).
  rewrite length_append, length_append. simpl String.length.
  replace (5 + (String.length address + 2) - 7) with (String.length address) by lia.
  rewrite (substring_skip (String "u" (String "r" (String "l" (String "(" (String q "")))))).
  apply substring_take.
Qed.

Lemma unwrapUrl_nonempty (s : string) : s <> "" -> unwrapUrl s <> "".
Proof.
  intros Hne. destruct (test URL_WRAPPER s) eqn:Et.
  - apply URL_WRAPPER_spec in Et as (q & address & q' & -> & Hq & Hq' & Ha & Hdot).
    now rewrite unwrapUrl_wrapped.
  - unfold unwrapUrl. now rewrite Et.
Qed.

(** The guards of the loop over the background images come down to one:
    the text includes [profile_images]. *)
Lemma background_guard (bgImage : string) :
  JS.truthy bgImage && negb (String.eqb bgImage "none")
  && JS.includes bgImage "profile_images"
  = JS.includes bgImage "profile_images".
Proof.
  destruct (JS.includes bgImage "profile_images") eqn:Ei;
    [| now rewrite andb_false_r].
  destruct bgImage as [| c rest]; [discriminate Ei |].
  destruct (String.eqb (String c rest) "none") eqn:En; [| reflexivity].
  apply String.eqb_eq in En. rewrite En in Ei. discriminate Ei.
Qed.

Lemma firstBackground_Some (els : list Styled) (url : string) :
  firstBackground els = Some url ->
  url <> ""
  /\ exists el, In el els
                /\ JS.includes (backgroundImage el) "profile_images" = true
                /\ url = unwrapUrl (backgroundImage el).
Proof.
  induction els as [| el els IH]; simpl; [discriminate |].
  rewrite background_guard.
  destruct (JS.includes (backgroundImage el) "profile_images") eqn:Ei.
  - intros E. inversion E; subst. split.
    + apply unwrapUrl_nonempty.
      destruct (backgroundImage el); [discriminate Ei | discriminate].
    + exists el. auto.
  - intros E. destruct (IH E) as (Hne & el' & Hin & Hi & Hu).
    split; [exact Hne |]. exists el'. auto.
Qed.

Lemma firstBackground_None (els : list Styled) :
  firstBackground els = None <->
  forall el, In el els -> JS.includes (backgroundImage el) "profile_images" = false.
Proof.
  induction els as [| el els IH]; simpl.
  - split; [intros _ el [] | reflexivity].
  - rewrite background_guard.
    destruct (JS.includes (backgroundImage el) "profile_images") eqn:Ei.
    + split; [discriminate |]. intros H. specialize (H el (or_introl eq_refl)).
      congruence.
    + rewrite IH. split.
      * intros H el' [<- | Hin]; auto.
      * intros H el' Hin. apply H. now right.
Qed.

(** X12: unwrapping a wrapped address gives the address back: around an
    address that is not empty and has no line terminator, between single
    or double quotes, the [url(...)] is removed. *)
Theorem unwrapUrl_round_trip (q q' : ascii) (address : string) :
  isQuote q = true -> isQuote q' = true ->
  address <> "" -> allDot address = true ->
  unwrapUrl (wrapUrl q address q') = address.
Proof. apply unwrapUrl_wrapped. Qed.

(** X13: [unwrapUrl] changes a text only when it is a wrapped address,
    and then returns the address. *)
Theorem unwrapUrl_changes_wrapped_only (s : string) :
  unwrapUrl s <> s ->
  exists q address q',
    s = wrapUrl q address q'
    /\ isQuote q = true /\ isQuote q' = true
    /\ address <> "" /\ allDot address = true
    /\ unwrapUrl s = address.
Proof.
  intros Hch. destruct (test URL_WRAPPER s) eqn:Et.
  - apply URL_WRAPPER_spec in Et as (q & address & q' & -> & Hq & Hq' & Ha & Hdot).
    exists q, address, q'. repeat split; auto. now apply unwrapUrl_wrapped.
  - unfold unwrapUrl in Hch. rewrite Et in Hch. contradiction.
Qed.

(** The loop stops at the first element whose background image includes
    [profile_images]. *)
Lemma firstBackground_first (els : list Styled) (url : string) :
  firstBackground els = Some url ->
  exists before el after,
    els = (before ++ el :: after)%list
    /\ (forall e, In e before ->
                  JS.includes (backgroundImage e) "profile_images" = false)
    /\ JS.includes (backgroundImage el) "profile_images" = true
    /\ url = unwrapUrl (backgroundImage el).
Proof.
  induction els as [| el els IH]; simpl; [discriminate |].
  rewrite background_guard.
  destruct (JS.includes (backgroundImage el) "profile_images") eqn:Ei.
  - intros E. inversion E; subst.
    exists [], el, els. repeat split; auto. intros e [].
  - intros E. destruct (IH E) as (before & el' & after & -> & Hb & Hi & Hu).
    exists (el :: before), el', after. repeat split; auto.
    intros e [<- | Hin]; auto.
Qed.

(** X14: the image address of an avatar container.  A result is never
    empty: it is the [src] of the image, or else, the image missing or
    its [src] empty, the unwrapped background image of the first element,
    in the order of the query, whose background image includes
    [profile_images]; there is no result exactly when the image has no
    [src] and no background image includes [profile_images]. *)
Theorem extractProfileImage_result (container : Container) :
  match extractProfileImage container with
  | Some url =>
      url <> ""
      /\ ((exists img, profileImg container = Some img /\ src img = url)
          \/ ((forall img, profileImg container = Some img -> src img = "")
              /\ exists before el after,
                   bgElements container = (before ++ el :: after)%list
                   /\ (forall e, In e before ->
                                 JS.includes (backgroundImage e) "profile_images"
                                 = false)
                   /\ JS.includes (backgroundImage el) "profile_images" = true
                   /\ url = unwrapUrl (backgroundImage el)))
  | None =>
      (forall img, profileImg container = Some img -> src img = "")
      /\ forall el, In el (bgElements container) ->
                    JS.includes (backgroundImage el) "profile_images" = false
  end.
Proof.
  unfold extractProfileImage.
  assert (Hfallback :
    (forall img, profileImg container = Some img -> src img = "") ->
    match firstBackground (bgElements container) with
    | Some url =>
        url <> ""
        /\ ((exists img, profileImg container = Some img /\ src img = url)
            \/ ((forall img, profileImg container = Some img -> src img = "")
                /\ exists before el after,
                     bgElements container = (before ++ el :: after)%list
                     /\ (forall e, In e before ->
                                   JS.includes (backgroundImage e) "profile_images"
                                   = false)
                     /\ JS.includes (backgroundImage el) "profile_images" = true
                     /\ url = unwrapUrl (backgroundImage el)))
    | None =>
        (forall img, profileImg container = Some img -> src img = "")
        /\ forall el, In el (bgElements container) ->
                      JS.includes (backgroundImage el) "profile_images" = false
    end).
  { intros Hsrc.
    destruct (firstBackground (bgElements container)) as [url |] eqn:Ef.
    - pose proof (firstBackground_Some _ _ Ef) as (Hne & _).
      apply firstBackground_first in Ef. auto.
    - split; [exact Hsrc | now apply firstBackground_None]. }
  destruct (profileImg container) as [img |].
  - destruct (JS.truthy (src img)) eqn:Et.
    + apply truthy_spec in Et. split; [exact Et |]. left. now exists img.
    + apply Hfallback. intros img' E. inversion E; subst.
      destruct (src img'); [reflexivity | discriminate Et].
  - apply Hfallback. intros img E. discriminate E.
Qed.

End ImageFacts.

(** ** The Coordinator: effects of one handling *)

Section CoordinatorEffects.
Import DOM BotDetector Notions.

Lemma hasAttribute_setAttribute_other
  (attrs : list (string * string)) (name value other : string) :
  other <> name ->
  hasAttribute (setAttribute attrs name value) other = hasAttribute attrs other.
Proof.
  intros Hne. assert (Hn : String.eqb name other = false)
    by (apply String.eqb_neq; congruence).
  unfold setAttribute. destruct (hasAttribute attrs name).
  - unfold hasAttribute. induction attrs as [| kv attrs IH]; simpl; [reflexivity |].
    rewrite IH. f_equal.
    destruct (String.eqb (fst kv) name) eqn:Ek; [| reflexivity].
    apply String.eqb_eq in Ek. simpl. rewrite Ek. reflexivity.
  - unfold hasAttribute. rewrite existsb_app. simpl. rewrite Hn.
    now rewrite !orb_false_r.
Qed.

(** One handling of an unmarked notification, as a whole. *)
Lemma processNotification_unmarked
  (fulfils : Storage) (notification : Element) (page : Page) :
  isProcessed page = false ->
  processNotification fulfils notification page
  = (settles fulfils (fst (DOMExtractor.extractProfileData notification (clock page))),
     {| attributes :=
          if handledToTheEnd fulfils
               (fst (DOMExtractor.extractProfileData notification (clock page)))
          then setAttribute (attributes page) "data-xbot-processed" "true"
          else attributes page;
        calls := (calls page
                  ++ newCalls (fst (DOMExtractor.extractProfileData
                                      notification (clock page))))%list;
        clock := snd (DOMExtractor.extractProfileData notification (clock page)) |}).
Proof.
  unfold isProcessed. intros Hm.
  unfold processNotification. rewrite Hm.
  unfold bind, domExtractor_extractProfileData, bind, logCall, onClock.
  cbn [attributes calls clock].
  pose proof (extractProfileData_returns notification (clock page)) as Hr.
  destruct (DOMExtractor.extractProfileData notification (clock page))
    as [[[profileData |] |] c]; cbn [fst snd] in *.
  - unfold handledToTheEnd, settles, newCalls, flagged,
      profileAnalyzer_analyzeBotProbability, bind, logCall, ret.
    cbn [attributes calls clock]. unfold threshold. cbv zeta.
    set (analysis := ProfileAnalyzer.analyzeBotProbability profileData).
    destruct (greaterThan (probability analysis) (decimal 5 10)).
    + unfold uiManager_addBotWarningUI, storageService_recordInteraction,
        bind, logCall, ret, throw, markProcessed.
      cbn [attributes calls clock]. unfold JS.push.
      destruct (fulfils (username profileData) (interactionTimestamp profileData)
                        (interactionType profileData) (probability analysis)
                        (reasons analysis));
        cbn [andb negb]; repeat rewrite <- app_assoc; reflexivity.
    + unfold markProcessed. cbn [attributes calls clock andb]. unfold JS.push.
      repeat rewrite <- app_assoc. reflexivity.
  - unfold ret, settles, newCalls, handledToTheEnd, JS.push. reflexivity.
  - congruence.
Qed.

(** X15: one handling of an unmarked notification in full: how its
    promise settles, the attributes, the calls it adds to those made
    before, in the order extraction, analysis, warning, record, and the
    clock, which only extraction reads. *)
Theorem processNotification_effects
  (fulfils : Storage) (notification : Element) (page : Page) :
  isProcessed page = false ->
  processNotification fulfils notification page
  = (settles fulfils (fst (DOMExtractor.extractProfileData notification (clock page))),
     {| attributes :=
          if handledToTheEnd fulfils
               (fst (DOMExtractor.extractProfileData notification (clock page)))
          then setAttribute (attributes page) "data-xbot-processed" "true"
          else attributes page;
        calls := (calls page
                  ++ newCalls (fst (DOMExtractor.extractProfileData
                                      notification (clock page))))%list;
        clock := snd (DOMExtractor.extractProfileData notification (clock page)) |}).
Proof. apply processNotification_unmarked. Qed.

(** The calls a handling adds, marked or not. *)
Lemma processNotification_calls
  (fulfils : Storage) (notification : Element) (page : Page) :
  calls (snd (processNotification fulfils notification page))
  = (calls page
     ++ if isProcessed page then []
        else newCalls (fst (DOMExtractor.extractProfileData notification (clock page))))%list.
Proof.
  destruct (isProcessed page) eqn:Em.
  - unfold isProcessed in Em. unfold processNotification. rewrite Em.
    simpl. now rewrite app_nil_r.
  - now rewrite (processNotification_unmarked _ _ _ Em).
Qed.

(** X16: the warning and the interaction record go together and only
    above the threshold: among the calls a handling adds, either there is
    neither a warning nor a record, or the last two calls are a warning
    with a probability above 0.5 and, right after it, the record of an
    interaction with the same probability and reasons and a username that
    is not empty, with neither a warning nor a record before them. *)
Theorem warning_and_record_go_together
  (fulfils : Storage) (notification : Element) (page : Page) :
  exists added : list Call,
    calls (snd (processNotification fulfils notification page))
    = (calls page ++ added)%list
    /\ (forallb (fun c => negb (isWarningOrRecord c)) added = true
        \/ exists before u t i p r,
             added = (before ++ [AddBotWarningUI p r; RecordInteraction u t i p r])%list
             /\ forallb (fun c => negb (isWarningOrRecord c)) before = true
             /\ greaterThan p threshold = true
             /\ u <> "").
Proof.
  eexists. split; [apply processNotification_calls |].
  destruct (isProcessed page); [left; reflexivity |].
  destruct (DOMExtractor.extractProfileData notification (clock page))
    as [[[profileData |] |] c] eqn:Ee; unfold newCalls; cbn [fst]; cbv zeta;
    try (left; reflexivity).
  destruct (flagged profileData) eqn:Ef; [| left; reflexivity].
  right.
  exists [ExtractProfileData; AnalyzeBotProbability (username profileData)],
         (username profileData), (interactionTimestamp profileData),
         (interactionType profileData),
         (probability (ProfileAnalyzer.analyzeBotProbability profileData)),
         (reasons (ProfileAnalyzer.analyzeBotProbability profileData)).
  split; [reflexivity |]. split; [reflexivity |]. split; [exact Ef |].
  apply extracted_profile_record in Ee as (cell & u' & _ & Hw & ->).
  destruct Hw as (Hname & _). exact Hname.
Qed.

(** X17: a handling never removes the marker and touches no other
    attribute. *)
Theorem processNotification_keeps_attributes
  (fulfils : Storage) (notification : Element) (page : Page) (name : string) :
  (hasAttribute (attributes page) name = true ->
   hasAttribute (attributes (snd (processNotification fulfils notification page)))
                name = true)
  /\ (name <> "data-xbot-processed" ->
      hasAttribute (attributes (snd (processNotification fulfils notification page)))
                   name
      = hasAttribute (attributes page) name).
Proof.
  destruct (isProcessed page) eqn:Em.
  - unfold isProcessed in Em. unfold processNotification. rewrite Em. simpl. auto.
  - rewrite (processNotification_unmarked _ _ _ Em). cbn [snd attributes].
    destruct (handledToTheEnd fulfils
                (fst (DOMExtractor.extractProfileData notification (clock page))));
      [| auto].
    assert (Hother : name <> "data-xbot-processed" ->
                     hasAttribute (setAttribute (attributes page)
                                     "data-xbot-processed" "true") name
                     = hasAttribute (attributes page) name)
      by (intros Hne; now apply hasAttribute_setAttribute_other).
    split; [| exact Hother].
    intros Hhas. destruct (string_dec name "data-xbot-processed") as [-> | Hne].
    + apply hasAttribute_setAttribute.
    + now rewrite Hother.
Qed.

End CoordinatorEffects.

(** ** Feed discovery: which probe succeeds *)

Section FeedProbes.
Import BotDetector Notions.

Lemma findFeed_None (document : Document) (sels : list string) :
  findFeed document sels = None <-> noneIsHTMLElement document sels.
Proof.
  unfold noneIsHTMLElement. induction sels as [| sel sels IH]; simpl.
  - split; [intros _ sel found [] | reflexivity].
  - destruct (document sel) as [found |] eqn:Ed.
    + destruct (isHTMLElement found) eqn:Eh.
      * split; [discriminate |]. intros H.
        specialize (H sel found (or_introl eq_refl) Ed). congruence.
      * rewrite IH. split.
        -- intros H s f [<- | Hin] Hs; [congruence | eauto].
        -- intros H s f Hin Hs. apply (H s f); auto.
    + rewrite IH. split.
      * intros H s f [<- | Hin] Hs; [congruence | eauto].
      * intros H s f Hin Hs. apply (H s f); auto.
Qed.

(** X18: the feed is what the first selector that finds an
    [HTMLElement] finds; matches that are not [HTMLElement]s are passed
    over, and there is no feed exactly when no selector finds one. *)
Theorem findFeed_first_HTMLElement (document : Document) (sels : list string) :
  match findFeed document sels with
  | Some found =>
      exists before sel after,
        sels = (before ++ sel :: after)%list
        /\ document sel = Some found
        /\ isHTMLElement found = true
        /\ noneIsHTMLElement document before
  | None => noneIsHTMLElement document sels
  end.
Proof.
  destruct (findFeed document sels) as [found |] eqn:Ef;
    [| now apply findFeed_None].
  revert Ef. induction sels as [| sel sels IH]; simpl; [discriminate |].
  assert (Hrest : noneIsHTMLElement document [sel] ->
                  findFeed document sels = Some found ->
                  exists before sel0 after,
                    sel :: sels = (before ++ sel0 :: after)%list
                    /\ document sel0 = Some found
                    /\ isHTMLElement found = true
                    /\ noneIsHTMLElement document before).
  { intros Hsel Ef. destruct (IH Ef) as (before & sel0 & after & -> & Hd & Hh & Hb).
    exists (sel :: before), sel0, after. repeat split; auto.
    intros s f [E | Hin] Hs; [apply (Hsel s f); [left; exact E | exact Hs] | eauto]. }
  destruct (document sel) as [first |] eqn:Ed.
  - destruct (isHTMLElement first) eqn:Eh.
    + intros E. inversion E; subst.
      exists [], sel, sels. repeat split; auto. intros s f [].
    + apply Hrest. intros s f [<- | []] Hs. congruence.
  - apply Hrest. intros s f [<- | []] Hs. congruence.
Qed.

(** The first probe decides whether the wait goes on. *)
Lemma waitForNotificationsFeed_found (page : nat -> Document) (this : Fields)
  (found : Node) :
  findFeed (page 0) selectors = Some found ->
  waitForNotificationsFeed page this
  = {| feed := Some found; fields := this; timers := [] |}.
Proof.
  intros Hf. funelim (waitForNotificationsFeed page this); congruence.
Qed.

Lemma waitForNotificationsFeed_retry (page : nat -> Document) (this : Fields) :
  findFeed (page 0) selectors = None ->
  retryCount this < maxRetries this ->
  waitForNotificationsFeed page this
  = {| feed := feed (waitForNotificationsFeed (fun k => page (S k))
                       (incrRetryCount this));
       fields := fields (waitForNotificationsFeed (fun k => page (S k))
                           (incrRetryCount this));
       timers := 1000%Z :: timers (waitForNotificationsFeed (fun k => page (S k))
                                     (incrRetryCount this)) |}.
Proof.
  intros Hf Hlt. funelim (waitForNotificationsFeed page this);
    try congruence; try lia.
Qed.

(** The wait when probe [k] is the first to find a feed. *)
Lemma waitForNotificationsFeed_first (k : nat) :
  forall (page : nat -> Document) (this : Fields) (found : Node),
    (forall j, j < k -> findFeed (page j) selectors = None) ->
    findFeed (page k) selectors = Some found ->
    retryCount this + k <= maxRetries this ->
    waitForNotificationsFeed page this
    = {| feed := Some found;
         fields := {| retryCount := retryCount this + k;
                      maxRetries := maxRetries this |};
         timers := repeat 1000%Z k |}.
Proof.
  induction k as [| k IH]; intros page this found Hnone Hfound Hle.
  - rewrite (waitForNotificationsFeed_found page this found Hfound).
    destruct this as [r m]. simpl. now rewrite Nat.add_0_r.
  - rewrite waitForNotificationsFeed_retry; [| apply Hnone; lia | lia].
    rewrite (IH (fun j => page (S j)) (incrRetryCount this) found).
    + simpl. repeat f_equal. lia.
    + intros j Hj. apply Hnone. lia.
    + exact Hfound.
    + simpl. lia.
Qed.

(** X19: the wait returns the feed of the first probe that finds one,
    after one timer of 1000 ms per failed probe, each counted in
    [retryCount], provided the retries left allow that many. *)
Theorem feed_found_at_first_successful_probe
  (page : nat -> Document) (this : Fields) (found : Node) (k : nat) :
  (forall j, j < k -> findFeed (page j) selectors = None) ->
  findFeed (page k) selectors = Some found ->
  retryCount this + k <= maxRetries this ->
  waitForNotificationsFeed page this
  = {| feed := Some found;
       fields := {| retryCount := retryCount this + k;
                    maxRetries := maxRetries this |};
       timers := repeat 1000%Z k |}.
Proof. apply waitForNotificationsFeed_first. Qed.

(** X20: a fresh detector starts the pipeline exactly when one of its 11
    probes, the first and one after each of the 10 timers, finds a feed;
    what the document holds later is not looked at. *)
Theorem init_starts_iff_a_probe_finds_the_feed (page : nat -> Document) :
  fst (init page initial) = NotStarted
  <-> forall k, k <= 10 -> findFeed (page k) selectors = None.
Proof.
  destruct (waitForNotificationsFeed_bounded page initial)
    as (Hlen & _ & _ & Hcount & Hfeed & Hnone & Hcap).
  change (maxRetries initial) with 10 in *. change (retryCount initial) with 0 in *.
  unfold init. cbv zeta.
  destruct (feed (waitForNotificationsFeed page initial)) as [found |] eqn:Ef;
    cbn [fst].
  - split; [discriminate |]. intros Hall.
    assert (Hten : List.length (timers (waitForNotificationsFeed page initial)) <= 10)
      by lia.
    rewrite (Hall _ Hten) in Hfeed. discriminate Hfeed.
  - split; [| reflexivity]. intros _ k Hk.
    specialize (Hcap eq_refl).
    destruct (Nat.eq_dec k (List.length (timers (waitForNotificationsFeed page initial))))
      as [-> | Hne]; [now symmetry | apply Hnone; lia].
Qed.

End FeedProbes.

(** ** The Coordinator: a notification handled to the end is handled once *)

Section HandledOnce.
Import DOM BotDetector Notions.

(** X21: once a handling has run to its end, every later handling of the
    notification, whatever the store then does, changes nothing and makes
    no call. *)
Theorem handled_to_the_end_once
  (fulfils later : Storage) (notification : Element) (page : Page) :
  isProcessed page = false ->
  handledToTheEnd fulfils
    (fst (DOMExtractor.extractProfileData notification (clock page))) = true ->
  processNotification later notification
    (snd (processNotification fulfils notification page))
  = (Normal tt, snd (processNotification fulfils notification page)).
Proof.
  intros Hm Hh. rewrite (processNotification_unmarked _ _ _ Hm), Hh. cbn [snd].
  unfold processNotification at 1. cbn [attributes].
  rewrite hasAttribute_setAttribute. reflexivity.
Qed.

End HandledOnce.

(** ** The further properties at sample inputs *)

Section MoreWitnesses.
Import RegExp DOM Notions.


Lemma followers_never_raise_the_score_witness :
  username MoreSamples.followedSpamProfile = username MoreSamples.spamProfile
  /\ noFollowersCondition MoreSamples.spamProfile = true
  /\ lessEq (ProfileAnalyzer.calculateBotProbability MoreSamples.followedSpamProfile)
            (ProfileAnalyzer.calculateBotProbability MoreSamples.spamProfile) = true.
Proof.
  split; [reflexivity |]. split; [reflexivity |].
  apply (followers_never_raise_the_score
           MoreSamples.followedSpamProfile MoreSamples.spamProfile);
    reflexivity.
Defined.

Lemma parsed_records_are_well_formed_witness :
  DOMExtractor.parseNotification Sample.multiUserCell (Sample.clockAt 0)
  = (Normal (Some MoreSamples.multiUserData), MoreSamples.clockAfter 2)
  /\ DOMExtractor.users MoreSamples.multiUserData = Some MoreSamples.multiUserRecords
  /\ Forall (wellFormedRecord Sample.multiUserCell) MoreSamples.multiUserRecords.
Proof.
  assert (E : DOMExtractor.parseNotification Sample.multiUserCell (Sample.clockAt 0)
              = (Normal (Some MoreSamples.multiUserData), MoreSamples.clockAfter 2))
    by (vm_compute; reflexivity).
  split; [exact E |]. split; [reflexivity |].
  exact (proj1 (proj2 (parsed_records_are_well_formed
                         Sample.multiUserCell (Sample.clockAt 0)
                         (MoreSamples.clockAfter 2) MoreSamples.multiUserData
                         MoreSamples.multiUserRecords E eq_refl))).
Defined.

Lemma timestamps_are_successive_readings_witness :
  DOMExtractor.parseNotification Sample.multiUserCell (Sample.clockAt 0)
  = (Normal (Some MoreSamples.multiUserData), MoreSamples.clockAfter 2)
  /\ map interactionTimestamp MoreSamples.multiUserRecords = [0%Z; 1%Z].
Proof.
  assert (E : DOMExtractor.parseNotification Sample.multiUserCell (Sample.clockAt 0)
              = (Normal (Some MoreSamples.multiUserData), MoreSamples.clockAfter 2))
    by (vm_compute; reflexivity).
  split; [exact E |].
  exact (proj2 (proj2 (timestamps_are_successive_readings
                         Sample.multiUserCell (Sample.clockAt 0)
                         (MoreSamples.clockAfter 2)
                         (Some MoreSamples.multiUserData) E))).
Defined.

Lemma extracted_profile_scoring_witness :
  DOMExtractor.extractProfileData (Sample.elementOf Sample.spamCell) (Sample.clockAt 0)
  = (Normal (Some MoreSamples.spamProfile), MoreSamples.clockAfter 1)
  /\ exempt MoreSamples.spamProfile = false
  /\ noFollowersCondition MoreSamples.spamProfile = true.
Proof.
  assert (E : DOMExtractor.extractProfileData (Sample.elementOf Sample.spamCell)
                (Sample.clockAt 0)
              = (Normal (Some MoreSamples.spamProfile), MoreSamples.clockAfter 1))
    by (vm_compute; reflexivity).
  split; [exact E |].
  destruct (extracted_profile_scoring _ _ _ _ E) as (_ & Hex & Hnf & _).
  split; [exact Hex | exact Hnf].
Defined.

Lemma throwing_query_yields_null_witness :
  structuralKind (loweredText MoreSamples.brokenCell) = None
  /\ In (Sample.linkTo MoreSamples.quotedName) (userLinks MoreSamples.brokenCell)
  /\ resolvable MoreSamples.brokenCell (Sample.linkTo "alice") = true
  /\ fst (DOMExtractor.parseNotification MoreSamples.brokenCell (Sample.clockAt 0))
     = Throw
  /\ fst (DOMExtractor.extractProfileData (Sample.elementOf MoreSamples.brokenCell)
            (Sample.clockAt 0))
     = Normal None.
Proof.
  assert (Hs : structuralKind (loweredText MoreSamples.brokenCell) = None)
    by (vm_compute; reflexivity).
  assert (Hin : In (Sample.linkTo MoreSamples.quotedName)
                   (userLinks MoreSamples.brokenCell))
    by (vm_compute; right; left; reflexivity).
  assert (Hne : linkUsername (Sample.linkTo MoreSamples.quotedName) <> "")
    by (vm_compute; discriminate).
  assert (Hq : querySelector MoreSamples.brokenCell
                 (DOMExtractor.avatarSelector
                    (linkUsername (Sample.linkTo MoreSamples.quotedName))) = Throw)
    by (vm_compute; reflexivity).
  destruct (throwing_query_yields_null MoreSamples.brokenCell
              (Sample.linkTo MoreSamples.quotedName) (Sample.clockAt 0)
              Hs Hin Hne Hq) as [Hparse Hextract].
  split; [exact Hs |]. split; [exact Hin |].
  split; [vm_compute; reflexivity |].
  split; [exact Hparse | apply Hextract; reflexivity].
Defined.

Lemma unwrapUrl_round_trip_witness :
  isQuote "'" = true /\ isQuote JS.dquote = true
  /\ MoreSamples.sampleAddress <> ""
  /\ allDot MoreSamples.sampleAddress = true
  /\ DOMExtractor.unwrapUrl (wrapUrl "'" MoreSamples.sampleAddress JS.dquote)
     = MoreSamples.sampleAddress.
Proof.
  assert (Hne : MoreSamples.sampleAddress <> "") by (vm_compute; discriminate).
  split; [reflexivity |]. split; [reflexivity |]. split; [exact Hne |].
  split; [reflexivity |].
  exact (unwrapUrl_round_trip "'" JS.dquote MoreSamples.sampleAddress
           eq_refl eq_refl Hne eq_refl).
Defined.

Lemma unwrapUrl_changes_wrapped_only_witness :
  DOMExtractor.unwrapUrl (wrapUrl "'" MoreSamples.sampleAddress "'")
  <> wrapUrl "'" MoreSamples.sampleAddress "'"
  /\ exists q address q',
       wrapUrl "'" MoreSamples.sampleAddress "'" = wrapUrl q address q'
       /\ DOMExtractor.unwrapUrl (wrapUrl "'" MoreSamples.sampleAddress "'") = address.
Proof.
  assert (Hch : DOMExtractor.unwrapUrl (wrapUrl "'" MoreSamples.sampleAddress "'")
                <> wrapUrl "'" MoreSamples.sampleAddress "'")
    by (vm_compute; discriminate).
  split; [exact Hch |].
  destruct (unwrapUrl_changes_wrapped_only _ Hch)
    as (q & address & q' & E & _ & _ & _ & _ & Hu).
  exists q, address, q'. split; [exact E | exact Hu].
Defined.

Lemma processNotification_effects_witness :
  isProcessed Sample.freshPage = false
  /\ fst (BotDetector.processNotification Sample.alwaysRejects
            (Sample.elementOf Sample.spamCell) Sample.freshPage)
     = settles Sample.alwaysRejects
         (fst (DOMExtractor.extractProfileData (Sample.elementOf Sample.spamCell)
                 (BotDetector.clock Sample.freshPage)))
  /\ settles Sample.alwaysRejects
       (fst (DOMExtractor.extractProfileData (Sample.elementOf Sample.spamCell)
               (BotDetector.clock Sample.freshPage)))
     = Throw.
Proof.
  split; [reflexivity |]. split; [| vm_compute; reflexivity].
  rewrite (processNotification_effects Sample.alwaysRejects
             (Sample.elementOf Sample.spamCell) Sample.freshPage eq_refl).
  reflexivity.
Defined.

Lemma feed_found_at_first_successful_probe_witness :
  (forall j, j < 3 ->
             BotDetector.findFeed (Sample.lateDocument j) BotDetector.selectors = None)
  /\ BotDetector.findFeed (Sample.lateDocument 3) BotDetector.selectors
     = Some MoreSamples.primaryColumn
  /\ BotDetector.waitForNotificationsFeed Sample.lateDocument BotDetector.initial
     = {| BotDetector.feed := Some MoreSamples.primaryColumn;
          BotDetector.fields := {| BotDetector.retryCount := 3;
                                   BotDetector.maxRetries := 10 |};
          BotDetector.timers := [1000%Z; 1000%Z; 1000%Z] |}.
Proof.
  assert (Hnone : forall j, j < 3 ->
            BotDetector.findFeed (Sample.lateDocument j) BotDetector.selectors = None).
  { intros [| [| [| j]]] Hj; try reflexivity. lia. }
  assert (Hfound : BotDetector.findFeed (Sample.lateDocument 3) BotDetector.selectors
                   = Some MoreSamples.primaryColumn) by (vm_compute; reflexivity).
  split; [exact Hnone |]. split; [exact Hfound |].
  apply (feed_found_at_first_successful_probe Sample.lateDocument
           BotDetector.initial MoreSamples.primaryColumn 3 Hnone Hfound).
  simpl. lia.
Defined.

Lemma handled_to_the_end_once_witness :
  isProcessed Sample.freshPage = false
  /\ handledToTheEnd Sample.alwaysFulfils
       (fst (DOMExtractor.extractProfileData (Sample.elementOf Sample.spamCell)
               (BotDetector.clock Sample.freshPage))) = true
  /\ BotDetector.processNotification Sample.alwaysRejects
       (Sample.elementOf Sample.spamCell)
       (snd (BotDetector.processNotification Sample.alwaysFulfils
               (Sample.elementOf Sample.spamCell) Sample.freshPage))
     = (Normal tt,
        snd (BotDetector.processNotification Sample.alwaysFulfils
               (Sample.elementOf Sample.spamCell) Sample.freshPage)).
Proof.
  assert (Hh : handledToTheEnd Sample.alwaysFulfils
                 (fst (DOMExtractor.extractProfileData
                         (Sample.elementOf Sample.spamCell)
                         (BotDetector.clock Sample.freshPage))) = true)
    by (vm_compute; reflexivity).
  split; [reflexivity |]. split; [exact Hh |].
  apply (handled_to_the_end_once Sample.alwaysFulfils Sample.alwaysRejects
           (Sample.elementOf Sample.spamCell) Sample.freshPage eq_refl Hh).
Defined.

End MoreWitnesses.
